(** * Notebooks of intro-to-deeplearning-pytorch: training loop and checkpoints

    Two notebooks are embedded here.

    - "Training Neural Networks": the cell "Training for real", a loop over
      [epochs] passes of [trainloader] that runs one training pass per batch
      and prints the mean loss of each epoch.
    - "Saving and Loading Models": the cells that save a state dict, reload
      it, build the [checkpoint] dictionary, and the function
      [load_checkpoint].

    Everything the notebooks delegate to PyTorch (tensor arithmetic,
    autograd, the optimiser, the pickling of [torch.save]) is an operation of
    an interface; the notebooks' own control flow, dictionary construction,
    indexing and rebinding of names is written out. *)

From Stdlib Require Import List String Ascii ZArith Lia Bool.
From Stdlib Require Import DecimalString DecimalNat.
Import ListNotations.
Local Open Scope string_scope.
Local Open Scope list_scope.

(** ** Python exceptions and results *)

Inductive runtime_msg : Type :=
| NegativeDimension (d : Z)
| LoadingStateDict (missing unexpected size_mismatch : list string).

Inductive exn : Type :=
| KeyError (key : string)
| TypeError
| AttributeError
| IndexError
| ZeroDivisionError
| NameError (name : string)
| FileNotFoundError (path : string)
| RuntimeError (msg : runtime_msg).

Inductive result (A : Type) : Type :=
| Ok (a : A)
| Raise (e : exn).

Arguments Ok {A} a.
Arguments Raise {A} e.

Definition is_ok {A} (r : result A) : bool :=
  match r with Ok _ => true | Raise _ => false end.

(** ** The training loop ("Training Neural Networks", cell "Training for real") *)

Module Training.

(** What the cell takes from PyTorch.  [autograd l] is the gradient that
    [l.backward()] computes from the graph recorded in the loss [l];
    [accumulate] is the in-place [+=] that [backward] performs on an existing
    [.grad], [zero_] the in-place zeroing of [optimizer.zero_grad()], and
    [sgd_update] the update [p <- p - lr * p.grad] of [optim.SGD.step]
    (lr = 0.003).  Python floats are binary64; their operations are kept
    abstract. *)
Class Framework : Type := {
  images : Type;
  labels : Type;
  logits : Type;
  loss_t : Type;
  params : Type;
  grads : Type;
  pyfloat : Type;
  view_flat : images -> images;
  model : params -> images -> logits;
  criterion : logits -> labels -> loss_t;
  item : loss_t -> pyfloat;
  autograd : loss_t -> grads;
  accumulate : grads -> grads -> grads;
  zero_ : grads -> grads;
  sgd_update : params -> grads -> params;
  float_of_int : Z -> pyfloat;
  float_add : pyfloat -> pyfloat -> pyfloat;
  float_truediv : pyfloat -> pyfloat -> pyfloat;
  float_str : pyfloat -> string
}.

Section Loop.
Context {F : Framework}.

(** The parameters of [model] together with their [.grad] buffers, which are
    [None] until the first backward pass. *)
Record trainer : Type := {
  weights : params;
  grad : option grads
}.

(** [optimizer.zero_grad()]: zero every gradient buffer that exists. *)
Definition zero_grad (t : trainer) : trainer :=
  {| weights := weights t; grad := option_map zero_ (grad t) |}.

(** [loss.backward()]: store the gradient, adding to the buffer if there is
    one. *)
Definition backward (l : loss_t) (t : trainer) : trainer :=
  {| weights := weights t;
     grad := Some (match grad t with
                   | None => autograd l
                   | Some g => accumulate g (autograd l)
                   end) |}.

(** [optimizer.step()]: parameters without a gradient are skipped. *)
Definition step (t : trainer) : trainer :=
  match grad t with
  | None => t
  | Some g => {| weights := sgd_update (weights t) g; grad := Some g |}
  end.

Definition batch : Type := (images * labels)%type.

(** The loss tensor of one batch under the weights [w]. *)
Definition batch_loss (w : params) (b : batch) : loss_t :=
  criterion (model w (view_flat (fst b))) (snd b).

(** The body of the inner loop up to [optimizer.step()]; returns
    [loss.item()]. *)
Definition training_pass (t : trainer) (b : batch) : trainer * pyfloat :=
  let imgs := view_flat (fst b) in
  let t1 := zero_grad t in
  let out := model (weights t1) imgs in
  let loss := criterion out (snd b) in
  let t2 := backward loss t1 in
  let t3 := step t2 in
  (t3, item loss).

(** [running_loss] starts as the int [0] and becomes a float at the first
    [+=]. *)
Inductive number : Type :=
| Int (z : Z)
| Float (x : pyfloat).

Definition to_float (n : number) : pyfloat :=
  match n with
  | Int z => float_of_int z
  | Float x => x
  end.

Definition iadd_float (n : number) (x : pyfloat) : number :=
  Float (float_add (to_float n) x).

(** [n / d] for an int [d]: true division, [ZeroDivisionError] on [d = 0]. *)
Definition truediv (n : number) (d : Z) : result pyfloat :=
  if (d =? 0)%Z then Raise ZeroDivisionError
  else Ok (float_truediv (to_float n) (float_of_int d)).

(** [trainloader] as the loop uses it: [len(trainloader)] and the batches
    that the [e]-th pass over it yields (with [shuffle=True] the passes
    differ). *)
Record DataLoader : Type := {
  dl_len : nat;
  dl_iter : nat -> list batch
}.

(** A fixed finite batch sequence, iterated in order on every pass. *)
Definition loader_of (bs : list batch) : DataLoader :=
  {| dl_len := List.length bs; dl_iter := fun _ => bs |}.

(** State of the cell: the network being trained and what was printed. *)
Record session : Type := {
  net : trainer;
  stdout : list string
}.

(** The inner [for images, labels in trainloader] loop. *)
Definition inner_loop (bs : list batch) (t : trainer) : trainer * number :=
  fold_left
    (fun (acc : trainer * number) (b : batch) =>
       let '(t1, loss) := training_pass (fst acc) b in
       (t1, iadd_float (snd acc) loss))
    bs (t, Int 0).

(** One iteration of [for e in range(epochs)], the [else] branch of the inner
    loop included.  An exception leaves the weights reached so far. *)
Definition epoch_body (trainloader : DataLoader) (e : nat) (s : session)
  : session * result unit :=
  let '(t1, running_loss) := inner_loop (dl_iter trainloader e) (net s) in
  match truediv running_loss (Z.of_nat (dl_len trainloader)) with
  | Raise x => ({| net := t1; stdout := stdout s |}, Raise x)
  | Ok avg =>
      ({| net := t1;
          stdout := stdout s ++ [("Training loss: " ++ float_str avg)%string] |},
       Ok tt)
  end.

Fixpoint for_range (trainloader : DataLoader) (es : list nat) (s : session)
  : session * result unit :=
  match es with
  | [] => (s, Ok tt)
  | e :: rest =>
      match epoch_body trainloader e s with
      | (s1, Ok _) => for_range trainloader rest s1
      | (s1, Raise x) => (s1, Raise x)
      end
  end.

(** The loop of the cell, for any value of [epochs]. *)
Definition train_loop (epochs : nat) (trainloader : DataLoader) (s : session)
  : session * result unit :=
  for_range trainloader (seq 0 epochs) s.

(** The cell sets [epochs = 5]. *)
Definition epochs : nat := 5.

(** *** What the loop is meant to compute, stated without the loop *)

(** The losses of the batches [bs] processed in order from [t]. *)
Fixpoint pass_losses (bs : list batch) (t : trainer) : list pyfloat :=
  match bs with
  | [] => []
  | b :: rest =>
      let '(t1, l) := training_pass t b in l :: pass_losses rest t1
  end.

Definition after_batches (bs : list batch) (t : trainer) : trainer :=
  fold_left (fun t b => fst (training_pass t b)) bs t.

(** Sum of the per-batch losses divided by the number of batches. *)
Definition mean_loss (losses : list pyfloat) : pyfloat :=
  float_truediv
    (fold_left float_add losses (float_of_int 0))
    (float_of_int (Z.of_nat (List.length losses))).

Definition loss_line (losses : list pyfloat) : string :=
  ("Training loss: " ++ float_str (mean_loss losses))%string.

(** The lines printed by [n] epochs over the fixed batches [bs]. *)
Fixpoint epoch_lines (n : nat) (bs : list batch) (t : trainer) : list string :=
  match n with
  | O => []
  | S k => loss_line (pass_losses bs t) :: epoch_lines k bs (after_batches bs t)
  end.

(** The same for a loader whose passes differ, over the epochs [es]. *)
Fixpoint loader_lines (trainloader : DataLoader) (es : list nat) (t : trainer)
  : list string :=
  match es with
  | [] => []
  | e :: rest =>
      loss_line (pass_losses (dl_iter trainloader e) t)
      :: loader_lines trainloader rest (after_batches (dl_iter trainloader e) t)
  end.

Definition after_epochs (trainloader : DataLoader) (es : list nat) (t : trainer)
  : trainer :=
  fold_left (fun t e => after_batches (dl_iter trainloader e) t) es t.

(** The gradient of the loss of batch [b] at the weights [w]. *)
Definition batch_gradient (w : params) (b : batch) : grads :=
  autograd (batch_loss w b).

(** Plain stochastic gradient descent: each step uses the gradient of the
    current batch only. *)
Definition sgd_weights (bs : list batch) (w : params) : params :=
  fold_left (fun w b => sgd_update w (batch_gradient w b)) bs w.

End Loop.

(** A small instance on integers on which the definitions run. *)
Definition toy : Framework := {|
  images := Z; labels := Z; logits := Z; loss_t := Z;
  params := Z; grads := Z; pyfloat := Z;
  view_flat := fun x => x;
  model := fun w x => (w * x)%Z;
  criterion := fun y l => (y - l)%Z;
  item := fun l => l;
  autograd := fun l => (2 * l)%Z;
  accumulate := Z.add;
  zero_ := fun _ => 0%Z;
  sgd_update := fun w g => (w - g)%Z;
  float_of_int := fun z => z;
  float_add := Z.add;
  float_truediv := Z.div;
  float_str := fun z => if (z <? 0)%Z then "neg" else "nonneg"
|}.

Definition toy_session (w : Z) (g : option Z) (out : list string)
  : session (F := toy) :=
  Build_session (F := toy) (Build_trainer (F := toy) w g) out.

Definition toy_batches : list (batch (F := toy)) := [(2, 3)%Z].

(** *** The cells that take one step by hand *)

Section OneStep.
Context {F : Framework}.

(** [images.resize_(64, 784)], the in-place reshaping that the one-step cell
    uses where the loop uses [view]. *)
Variable resize_ : images -> images.

(** The update of [optim.SGD(model.parameters(), lr=0.01)], the optimiser of
    these cells. *)
Variable sgd_update_01 : params -> grads -> params.

(** Cell "Loss and Autograd together": a model just built, whose parameters
    [w0] have no gradient yet, and the loss of one batch. *)
Definition cell_loss (w0 : params) (b : batch) : trainer * loss_t :=
  ({| weights := w0; grad := None |}, batch_loss w0 b).

(** Cell: print the gradient, [loss.backward()], print the gradient.  The
    two printed values are returned. *)
Definition cell_backward (t : trainer) (loss : loss_t)
  : trainer * (option grads * option grads) :=
  let t1 := backward loss t in
  (t1, (grad t, grad t1)).

(** Cell: [optimizer.zero_grad()], forward pass, loss, [loss.backward()],
    print the gradient. *)
Definition cell_gradient (t : trainer) (b : batch) : trainer * option grads :=
  let imgs := resize_ (fst b) in
  let t1 := zero_grad t in
  let output := model (weights t1) imgs in
  let loss := criterion output (snd b) in
  let t2 := backward loss t1 in
  (t2, grad t2).

(** The same cell with its [optimizer.zero_grad()] line taken out. *)
Definition cell_gradient_no_zero (t : trainer) (b : batch) : trainer * option grads :=
  let imgs := resize_ (fst b) in
  let output := model (weights t) imgs in
  let loss := criterion output (snd b) in
  let t2 := backward loss t in
  (t2, grad t2).

(** Cell: [optimizer.step()] and the weights it prints. *)
Definition cell_step (t : trainer) : trainer :=
  match grad t with
  | None => t
  | Some g => {| weights := sgd_update_01 (weights t) g; grad := Some g |}
  end.

End OneStep.

(** A loader on the integers whose passes differ. *)
Definition toy_shuffled : DataLoader (F := toy) :=
  Build_DataLoader (F := toy) 1 (fun e => [((Z.of_nat e + 2)%Z, 3%Z)]).

End Training.

(** ** Checkpoints ("Saving and Loading Models") *)

Module Checkpoint.

(** Parameters are binary32 numbers.  The cells of this notebook never
    compute with them, they only copy them, so a number is represented by its
    bit pattern. *)
Definition scalar : Type := Z.

Record tensor : Type := {
  shape : list Z;
  data : list scalar
}.

(** The Python objects that reach [torch.save] and come back from
    [torch.load]: ints, lists, tensors and dicts with string keys.  A dict
    keeps its entries in insertion order. *)
#[local] Unset Elimination Schemes.
Inductive value : Type :=
| VInt (z : Z)
| VList (items : list value)
| VTensor (t : tensor)
| VDict (entries : list (string * value)).
#[local] Set Elimination Schemes.

Fixpoint dict_get {A : Type} (d : list (string * A)) (k : string) : option A :=
  match d with
  | [] => None
  | (k1, v) :: rest => if (k1 =? k)%string then Some v else dict_get rest k
  end.

Fixpoint dict_set {A : Type} (d : list (string * A)) (k : string) (v : A)
  : list (string * A) :=
  match d with
  | [] => [(k, v)]
  | (k1, v1) :: rest =>
      if (k1 =? k)%string then (k, v) :: rest else (k1, v1) :: dict_set rest k v
  end.

Definition keys {A : Type} (d : list (string * A)) : list string := map fst d.

(** [obj[k]] for a string [k]. *)
Definition getitem (obj : value) (k : string) : result value :=
  match obj with
  | VDict d =>
      match dict_get d k with
      | Some v => Ok v
      | None => Raise (KeyError k)
      end
  | _ => Raise TypeError
  end.

(** What the notebook takes from PyTorch and from [fc_model.train].
    [uniform_] draws the next initial parameter value from the global random
    generator.

    Modelled from the spec: [fc_model.train] is not among the sources; the
    spec says of training only that it iterates the framework's
    forward/backward/step operations a fixed number of times.  [fit g sd]
    stands for its effect on the parameters [sd]: the value it leaves at
    each position of each named parameter, and the generator state after
    it. *)
Class Torch : Type := {
  generator : Type;
  uniform_ : generator -> scalar * generator;
  fit : generator -> list (string * tensor) -> (string -> nat -> scalar) * generator
}.

Section Notebook.
Context {T : Torch}.

(** The files on disk and the random generator.  [torch.save] followed by
    [torch.load] gives back an equal object: the file is modelled as holding
    the object. *)
Record world : Type := {
  files : list (string * value);
  rng : generator
}.

Definition set_rng (w : world) (g : generator) : world :=
  {| files := files w; rng := g |}.

(** Computations that read and write the world and may raise; what was done
    before an exception stays done. *)
Definition M (A : Type) : Type := world -> result A * world.

Definition ret {A : Type} (a : A) : M A := fun w => (Ok a, w).

Definition raise {A : Type} (e : exn) : M A := fun w => (Raise e, w).

Definition bind {A B : Type} (c : M A) (k : A -> M B) : M B :=
  fun w =>
    match c w with
    | (Ok a, w1) => k a w1
    | (Raise e, w1) => (Raise e, w1)
    end.

Definition lift {A : Type} (r : result A) : M A := fun w => (r, w).

Notation "x <- c ;; k" := (bind c (fun x => k))
  (at level 61, c at next level, right associativity).

Definition torch_save (obj : value) (path : string) : M unit :=
  fun w => (Ok tt, {| files := dict_set (files w) path obj; rng := rng w |}).

Definition torch_load (path : string) : M value :=
  fun w =>
    match dict_get (files w) path with
    | Some obj => (Ok obj, w)
    | None => (Raise (FileNotFoundError path), w)
    end.

(** *** [nn.Linear] *)

Record Linear : Type := {
  in_features : Z;
  out_features : Z;
  weight : tensor;
  bias : tensor
}.

Fixpoint draws (n : nat) (g : generator) : list scalar * generator :=
  match n with
  | O => ([], g)
  | S k =>
      let '(x, g1) := uniform_ g in
      let '(xs, g2) := draws k g1 in
      (x :: xs, g2)
  end.

Definition numel (sh : list Z) : Z := fold_right Z.mul 1%Z sh.

(** A new tensor of shape [sh] filled from the generator. *)
Definition fresh_tensor (sh : list Z) : M tensor :=
  fun w =>
    let '(xs, g) := draws (Z.to_nat (numel sh)) (rng w) in
    (Ok {| shape := sh; data := xs |}, set_rng w g).

(** [nn.Linear(i, o)]: a weight of shape [o, i] and a bias of shape [o].
    Sizes that are not ints are a [TypeError], negative ones a
    [RuntimeError]. *)
Definition nn_Linear (i o : value) : M Linear :=
  match i, o with
  | VInt zi, VInt zo =>
      if (zi <? 0)%Z then raise (RuntimeError (NegativeDimension zi))
      else if (zo <? 0)%Z then raise (RuntimeError (NegativeDimension zo))
      else
        w <- fresh_tensor [zo; zi] ;;
        b <- fresh_tensor [zo] ;;
        ret {| in_features := zi; out_features := zo; weight := w; bias := b |}
  | _, _ => raise TypeError
  end.

(** *** [fc_model.Network] *)

Record Network : Type := {
  hidden_layers : list Linear;
  output : Linear
}.

(** The layers [Linear(prev, h0), Linear(h0, h1), ...]. *)
Fixpoint linear_chain (prev : value) (hs : list value) : M (list Linear) :=
  match hs with
  | [] => ret []
  | h :: rest =>
      l <- nn_Linear prev h ;;
      ls <- linear_chain h rest ;;
      ret (l :: ls)
  end.

(** Modelled from the spec: the class [fc_model.Network] is not among the
    sources.  The spec describes a model built from an input dimensionality,
    an output dimensionality and a sequence of hidden-layer widths; the
    notebook prints its layout for [Network(784, 10, [512, 256, 128])]: a
    module list [hidden_layers] of [Linear(784, 512)], [Linear(512, 256)],
    [Linear(256, 128)], then [output = Linear(128, 10)] and a dropout module
    without parameters (left out here).  The output layer reads the last
    hidden width, so an empty list of widths is an [IndexError]. *)
Definition fc_model_Network (input_size output_size hidden : value) : M Network :=
  match hidden with
  | VList [] => raise IndexError
  | VList (h0 :: rest) =>
      hl <- linear_chain input_size (h0 :: rest) ;;
      out <- nn_Linear (last rest h0) output_size ;;
      ret {| hidden_layers := hl; output := out |}
  | _ => raise TypeError
  end.

(** *** [state_dict] and [load_state_dict] *)

Definition index_str (i : nat) : string :=
  NilEmpty.string_of_uint (Nat.to_uint i).

Definition layer_prefix (i : nat) : string :=
  ("hidden_layers." ++ index_str i ++ ".")%string.

Definition linear_entries (prefix : string) (l : Linear) : list (string * tensor) :=
  [((prefix ++ "weight")%string, weight l); ((prefix ++ "bias")%string, bias l)].

Fixpoint hidden_entries (i : nat) (ls : list Linear) : list (string * tensor) :=
  match ls with
  | [] => []
  | l :: rest => linear_entries (layer_prefix i) l ++ hidden_entries (S i) rest
  end.

(** [model.state_dict()]: the parameters by name, in module order. *)
Definition state_dict (m : Network) : list (string * tensor) :=
  hidden_entries 0 (hidden_layers m) ++ linear_entries "output." (output m).

Fixpoint shape_eqb (s1 s2 : list Z) : bool :=
  match s1, s2 with
  | [], [] => true
  | a :: r1, b :: r2 => (a =? b)%Z && shape_eqb r1 r2
  | _, _ => false
  end.

(** What [load_state_dict] has collected so far. *)
Record report : Type := {
  missing_keys : list string;
  size_mismatch : list string;
  aborted : option exn
}.

Definition no_report : report :=
  {| missing_keys := []; size_mismatch := []; aborted := None |}.

(** Loading one parameter [p] named [key]: copy the recorded array in place
    when its shape agrees, note the name otherwise.  A recorded entry that is
    not a tensor has no [shape]: the [AttributeError] ends the loading. *)
Definition load_param (sd : list (string * value)) (key : string) (p : tensor)
  (r : report) : tensor * report :=
  match aborted r with
  | Some _ => (p, r)
  | None =>
      match dict_get sd key with
      | None =>
          (p, {| missing_keys := missing_keys r ++ [key];
                 size_mismatch := size_mismatch r;
                 aborted := None |})
      | Some (VTensor t) =>
          if shape_eqb (shape t) (shape p)
          then ({| shape := shape p; data := data t |}, r)
          else (p, {| missing_keys := missing_keys r;
                      size_mismatch := size_mismatch r ++ [key];
                      aborted := None |})
      | Some _ =>
          (p, {| missing_keys := missing_keys r;
                 size_mismatch := size_mismatch r;
                 aborted := Some AttributeError |})
      end
  end.

Definition load_linear (sd : list (string * value)) (prefix : string)
  (l : Linear) (r : report) : Linear * report :=
  let '(w, r1) := load_param sd (prefix ++ "weight")%string (weight l) r in
  let '(b, r2) := load_param sd (prefix ++ "bias")%string (bias l) r1 in
  ({| in_features := in_features l; out_features := out_features l;
      weight := w; bias := b |}, r2).

Fixpoint load_hidden (sd : list (string * value)) (i : nat) (ls : list Linear)
  (r : report) : list Linear * report :=
  match ls with
  | [] => ([], r)
  | l :: rest =>
      let '(l1, r1) := load_linear sd (layer_prefix i) l r in
      let '(ls1, r2) := load_hidden sd (S i) rest r1 in
      (l1 :: ls1, r2)
  end.

Definition mem (k : string) (ks : list string) : bool :=
  existsb (String.eqb k) ks.

Definition unexpected_keys (sd : list (string * value)) (m : Network) : list string :=
  filter (fun k => negb (mem k (keys (state_dict m)))) (keys sd).

Definition is_nil {A : Type} (l : list A) : bool :=
  match l with [] => true | _ => false end.

(** [model.load_state_dict(sd)] with the default [strict=True], as PyTorch
    documents it: the keys of [sd] must be those of [model.state_dict()] and
    the shapes must agree, otherwise a [RuntimeError] lists the missing keys,
    the unexpected keys and the size mismatches (the message stored in the
    notebook shows the last kind).  The model is updated in place, so the parameters
    that could be copied stay copied when the call raises: the model after
    the call is returned next to the outcome. *)
Definition load_state_dict (m : Network) (sd : value) : Network * result unit :=
  match sd with
  | VDict d =>
      let '(hl, r1) := load_hidden d 0 (hidden_layers m) no_report in
      let '(out, r2) := load_linear d "output." (output m) r1 in
      let m1 := {| hidden_layers := hl; output := out |} in
      match aborted r2 with
      | Some e => (m1, Raise e)
      | None =>
          let unexpected := unexpected_keys d m in
          if is_nil (missing_keys r2) && is_nil unexpected && is_nil (size_mismatch r2)
          then (m1, Ok tt)
          else (m1, Raise (RuntimeError
                            (LoadingStateDict (missing_keys r2) unexpected
                                              (size_mismatch r2))))
      end
  | _ => (m, Raise AttributeError)
  end.

(** *** Reading a parameter name *)

(** The part of a name before its first dot, and the part after it. *)
Fixpoint before_dot (s : string) : string :=
  match s with
  | EmptyString => EmptyString
  | String c r => if (c =? ".")%char then EmptyString else String c (before_dot r)
  end.

Fixpoint after_dot (s : string) : string :=
  match s with
  | EmptyString => EmptyString
  | String c r => if (c =? ".")%char then r else after_dot r
  end.

Fixpoint no_dot (s : string) : bool :=
  match s with
  | EmptyString => true
  | String c r => negb (c =? ".")%char && no_dot r
  end.

(** *** [load_state_dict], stated without the bookkeeping *)

(** Replacing every parameter by a function of its name and value. *)
Definition map_linear (f : string -> tensor -> tensor) (prefix : string)
  (l : Linear) : Linear :=
  {| in_features := in_features l; out_features := out_features l;
     weight := f (prefix ++ "weight")%string (weight l);
     bias := f (prefix ++ "bias")%string (bias l) |}.

Fixpoint map_hidden (f : string -> tensor -> tensor) (i : nat) (ls : list Linear)
  : list Linear :=
  match ls with
  | [] => []
  | l :: rest => map_linear f (layer_prefix i) l :: map_hidden f (S i) rest
  end.

Definition map_params (f : string -> tensor -> tensor) (m : Network) : Network :=
  {| hidden_layers := map_hidden f 0 (hidden_layers m);
     output := map_linear f "output." (output m) |}.


Definition is_missing (sd : list (string * value)) (k : string) : bool :=
  match dict_get sd k with
  | None => true
  | Some _ => false
  end.

(** The recorded array under the name of [e] has another shape than [e]. *)
Definition is_mismatch (sd : list (string * value)) (e : string * tensor) : bool :=
  match dict_get sd (fst e) with
  | Some (VTensor t) => negb (shape_eqb (shape t) (shape (snd e)))
  | _ => false
  end.

(** The entry recorded under the name of [e] is not an array. *)
Definition is_bad (sd : list (string * value)) (e : string * tensor) : bool :=
  match dict_get sd (fst e) with
  | Some (VTensor _) => false
  | Some _ => true
  | None => false
  end.

Definition missing_in (sd : list (string * value)) (es : list (string * tensor))
  : list string :=
  filter (is_missing sd) (keys es).

Definition mismatch_in (sd : list (string * value)) (es : list (string * tensor))
  : list string :=
  keys (filter (is_mismatch sd) es).

Definition is_tensor (v : value) : bool :=
  match v with VTensor _ => true | _ => false end.

(** A mapping from names to arrays. *)
Definition all_tensors (sd : list (string * value)) : bool :=
  forallb (fun kv => is_tensor (snd kv)) sd.

(** The parameter [p] named [key] after loading: the recorded array of the
    same name when there is one of the same shape. *)
Definition load_entry (sd : list (string * value)) (key : string) (p : tensor) : tensor :=
  match dict_get sd key with
  | Some (VTensor t) =>
      if shape_eqb (shape t) (shape p)
      then {| shape := shape p; data := data t |}
      else p
  | _ => p
  end.

(** The report [r] with more missing keys and size mismatches. *)
Definition extend (r : report) (ms mm : list string) : report :=
  {| missing_keys := missing_keys r ++ ms;
     size_mismatch := size_mismatch r ++ mm;
     aborted := aborted r |}.

(** The outcome of [load_state_dict] when no recorded entry under a
    parameter name is something else than an array. *)
Definition verdict (sd : list (string * value)) (m : Network) : result unit :=
  if is_nil (missing_in sd (state_dict m))
     && is_nil (unexpected_keys sd m)
     && is_nil (mismatch_in sd (state_dict m))
  then Ok tt
  else Raise (RuntimeError
                (LoadingStateDict (missing_in sd (state_dict m))
                                  (unexpected_keys sd m)
                                  (mismatch_in sd (state_dict m)))).

(** *** Layouts *)

(** [l] is a layer [Linear(i, o)] whatever its parameter values. *)
Definition linear_fits (i o : Z) (l : Linear) : bool :=
  (0 <=? i)%Z && (0 <=? o)%Z
  && (in_features l =? i)%Z && (out_features l =? o)%Z
  && shape_eqb (shape (weight l)) [o; i] && shape_eqb (shape (bias l)) [o].

Fixpoint chain_fits (prev : Z) (hs : list Z) (ls : list Linear) : bool :=
  match hs, ls with
  | [], [] => true
  | h :: hs1, l :: ls1 => linear_fits prev h l && chain_fits h hs1 ls1
  | _, _ => false
  end.

(** [m] has the layout of [Network(i, o, hs)] whatever its parameter
    values. *)
Definition has_arch (i o : Z) (hs : list Z) (m : Network) : bool :=
  negb (is_nil hs) && chain_fits i hs (hidden_layers m)
  && linear_fits (last hs i) o (output m).

(** What [nn.Linear] establishes and no cell breaks: the arrays of a layer
    have the shapes its [out_features] and [in_features] announce. *)
Definition linear_ok (l : Linear) : bool :=
  shape_eqb (shape (weight l)) [out_features l; in_features l]
  && shape_eqb (shape (bias l)) [out_features l].

Definition layers_ok (m : Network) : bool :=
  forallb linear_ok (hidden_layers m) && linear_ok (output m).

(** *** The cells that build and read the checkpoint *)

Definition state_dict_value (m : Network) : value :=
  VDict (map (fun kv => (fst kv, VTensor (snd kv))) (state_dict m)).

(** The dictionary literal of the cell
    [checkpoint = {'input_size': 784, 'output_size': 10, ...}]. *)
Definition checkpoint_of (model : Network) : value :=
  VDict [("input_size", VInt 784);
         ("output_size", VInt 10);
         ("hidden_layers",
          VList (map (fun each => VInt (out_features each)) (hidden_layers model)));
         ("state_dict", state_dict_value model)].

(** The same cell with its [torch.save(checkpoint, 'checkpoint.pth')]. *)
Definition save_checkpoint (model : Network) : M unit :=
  torch_save (checkpoint_of model) "checkpoint.pth".

Definition load_checkpoint (filepath : string) : M Network :=
  checkpoint <- torch_load filepath ;;
  input_size <- lift (getitem checkpoint "input_size") ;;
  output_size <- lift (getitem checkpoint "output_size") ;;
  hidden <- lift (getitem checkpoint "hidden_layers") ;;
  model <- fc_model_Network input_size output_size hidden ;;
  sd <- lift (getitem checkpoint "state_dict") ;;
  match load_state_dict model sd with
  | (model1, Ok _) => ret model1
  | (_, Raise e) => raise e
  end.

(** *** The notebook, cell by cell *)

(** [fc_model.train(model, ...)] updates the parameters of [model] in place
    and keeps their shapes. *)
Definition retrain (f : string -> nat -> scalar) (key : string) (t : tensor) : tensor :=
  {| shape := shape t; data := map (f key) (seq 0 (List.length (data t))) |}.

Definition fc_model_train (m : Network) (w : world) : Network * world :=
  let '(f, g) := fit (rng w) (state_dict m) in
  (map_params (retrain f) m, set_rng w g).

(** The names bound in the kernel of the notebook, and the world. *)
Record kernel : Type := {
  disk : world;
  model : option Network;
  state_dict_var : option value;
  checkpoint : option value
}.

Definition start (w : world) : kernel :=
  {| disk := w; model := None; state_dict_var := None; checkpoint := None |}.

Definition set_disk (k : kernel) (w : world) : kernel :=
  {| disk := w; model := model k; state_dict_var := state_dict_var k;
     checkpoint := checkpoint k |}.

Definition set_model (k : kernel) (m : Network) : kernel :=
  {| disk := disk k; model := Some m; state_dict_var := state_dict_var k;
     checkpoint := checkpoint k |}.

Definition set_state_dict (k : kernel) (sd : value) : kernel :=
  {| disk := disk k; model := model k; state_dict_var := Some sd;
     checkpoint := checkpoint k |}.

Definition set_checkpoint (k : kernel) (c : value) : kernel :=
  {| disk := disk k; model := model k; state_dict_var := state_dict_var k;
     checkpoint := Some c |}.

(** A cell runs on the kernel; when it raises, what it had done so far
    stays. *)
Definition cell : Type := kernel -> kernel * result unit.

Definition ints (zs : list Z) : value := VList (map VInt zs).

(** [model = fc_model.Network(784, 10, hs)], the first line of two cells. *)
Definition bind_model (hs : list Z) (k : kernel) : kernel * result unit :=
  match fc_model_Network (VInt 784) (VInt 10) (ints hs) (disk k) with
  | (Ok m, w1) => (set_model (set_disk k w1) m, Ok tt)
  | (Raise e, w1) => (set_disk k w1, Raise e)
  end.

(** [model.load_state_dict(state_dict)] *)
Definition call_load_state_dict : cell :=
  fun k =>
    match model k with
    | None => (k, Raise (NameError "model"))
    | Some m =>
        match state_dict_var k with
        | None => (k, Raise (NameError "state_dict"))
        | Some sd =>
            let '(m1, r) := load_state_dict m sd in (set_model k m1, r)
        end
    end.

(** Cell: [model = fc_model.Network(784, 10, [512, 256, 128])] *)
Definition cell_create : cell := bind_model [512; 256; 128]%Z.

(** Cell: [fc_model.train(model, trainloader, testloader, criterion,
    optimizer, epochs=2)] *)
Definition cell_train : cell :=
  fun k =>
    match model k with
    | None => (k, Raise (NameError "model"))
    | Some m =>
        let '(m1, w1) := fc_model_train m (disk k) in
        (set_model (set_disk k w1) m1, Ok tt)
    end.

(** Cell: [torch.save(model.state_dict(), 'checkpoint.pth')] *)
Definition cell_save_state_dict : cell :=
  fun k =>
    match model k with
    | None => (k, Raise (NameError "model"))
    | Some m =>
        let '(r, w1) := torch_save (state_dict_value m) "checkpoint.pth" (disk k) in
        (set_disk k w1, r)
    end.

(** Cell: [state_dict = torch.load('checkpoint.pth')] *)
Definition cell_load_state_dict : cell :=
  fun k =>
    match torch_load "checkpoint.pth" (disk k) with
    | (Ok sd, w1) => (set_state_dict (set_disk k w1) sd, Ok tt)
    | (Raise e, w1) => (set_disk k w1, Raise e)
    end.

(** Cell: [model.load_state_dict(state_dict)] *)
Definition cell_load_into_model : cell := call_load_state_dict.

(** Cell "Try this": [model = fc_model.Network(784, 10, [400, 200, 100])]
    and then [model.load_state_dict(state_dict)].  The name [model] is
    rebound before the second line raises. *)
Definition cell_try_this : cell :=
  fun k =>
    match bind_model [400; 200; 100]%Z k with
    | (k1, Ok _) => call_load_state_dict k1
    | (k1, Raise e) => (k1, Raise e)
    end.

(** Cell: [checkpoint = {...}] and [torch.save(checkpoint,
    'checkpoint.pth')] *)
Definition cell_checkpoint : cell :=
  fun k =>
    match model k with
    | None => (k, Raise (NameError "model"))
    | Some m =>
        let k1 := set_checkpoint k (checkpoint_of m) in
        let '(r, w1) := torch_save (checkpoint_of m) "checkpoint.pth" (disk k1) in
        (set_disk k1 w1, r)
    end.

(** Cell: [model = load_checkpoint('checkpoint.pth')] *)
Definition cell_use_checkpoint : cell :=
  fun k =>
    match load_checkpoint "checkpoint.pth" (disk k) with
    | (Ok m, w1) => (set_model (set_disk k w1) m, Ok tt)
    | (Raise e, w1) => (set_disk k w1, Raise e)
    end.

(** Running cells one after the other, as the recorded session did: a cell
    that raises does not stop the following ones from being run. *)
Fixpoint run_cells (cells : list cell) (k : kernel) : kernel * list (result unit) :=
  match cells with
  | [] => (k, [])
  | c :: rest =>
      let '(k1, r) := c k in
      let '(k2, rs) := run_cells rest k1 in
      (k2, r :: rs)
  end.

(** The cells of the notebook from the creation of the network to the saving
    of the checkpoint, in the order of the document (the cell that only
    prints the model is left out). *)
Definition cells_to_checkpoint : list cell :=
  [cell_create; cell_train; cell_save_state_dict; cell_load_state_dict;
   cell_load_into_model; cell_try_this; cell_checkpoint].

(** The same cells in the order of the execution counts stored in the
    notebook, where "Try this" (count 11) ran before
    [model.load_state_dict(state_dict)] (count 12). *)
Definition cells_as_recorded : list cell :=
  [cell_create; cell_train; cell_save_state_dict; cell_load_state_dict;
   cell_try_this; cell_load_into_model; cell_checkpoint].

(** The model bound to [model] once training is over. *)
Definition trained_model (w : world) : option Network :=
  model (fst (run_cells [cell_create; cell_train] (start w))).

End Notebook.

(** What [load_checkpoint] makes of [model.load_state_dict(sd)]: the loaded
    model when the call returns, its exception otherwise. *)
Definition load_into (m : Network) (sd : value) : result Network :=
  match load_state_dict m sd with
  | (m1, Ok _) => Ok m1
  | (_, Raise e) => Raise e
  end.

(** A parameter name with the shape of the parameter. *)
Definition name_shape (e : string * tensor) : string * list Z :=
  (fst e, shape (snd e)).

(** The shapes of the weights of the layers [Linear(prev, h0),
    Linear(h0, h1), ...]. *)
Fixpoint weight_shapes (prev : Z) (hs : list Z) : list (list Z) :=
  match hs with
  | [] => []
  | h :: rest => [h; prev] :: weight_shapes h rest
  end.

(** A small instance on which the definitions run: the generator counts, and
    training sets every parameter value to 7. *)
Definition counting : Torch := {|
  generator := Z;
  uniform_ := fun g => (g, (g + 1)%Z);
  fit := fun g _ => (fun _ _ => 7%Z, (g + 1000)%Z)
|}.

Definition empty_disk : world (T := counting) :=
  Build_world (T := counting) [] 0%Z.

Definition zeros (sh : list Z) : tensor :=
  {| shape := sh; data := repeat 0%Z (Z.to_nat (numel sh)) |}.

(** A network [Network(3, 2, [4])] as the constructor builds it from the
    counting generator. *)
Definition small_model : Network :=
  {| hidden_layers :=
       [{| in_features := 3; out_features := 4;
           weight := {| shape := [4; 3]%Z;
                        data := [0; 1; 2; 3; 4; 5; 6; 7; 8; 9; 10; 11]%Z |};
           bias := {| shape := [4]%Z; data := [12; 13; 14; 15]%Z |} |}];
     output :=
       {| in_features := 4; out_features := 2;
          weight := {| shape := [2; 4]%Z;
                       data := [16; 17; 18; 19; 20; 21; 22; 23]%Z |};
          bias := {| shape := [2]%Z; data := [24; 25]%Z |} |} |}.

(** A network with the layout of [Network(784, 10, [2])]. *)
Definition mnist_model : Network :=
  {| hidden_layers :=
       [{| in_features := 784; out_features := 2;
           weight := zeros [2; 784]%Z; bias := zeros [2]%Z |}];
     output :=
       {| in_features := 2; out_features := 10;
          weight := zeros [10; 2]%Z; bias := zeros [10]%Z |} |}.

(** A disk whose only file is ['checkpoint.pth'], holding [obj]. *)
Definition disk_with (obj : value) : world (T := counting) :=
  Build_world (T := counting) [("checkpoint.pth", obj)] 0%Z.

(** The record of [small_model] with its own sizes. *)
Definition record_small : value :=
  VDict [("input_size", VInt 3);
         ("output_size", VInt 2);
         ("hidden_layers", VList [VInt 4]);
         ("state_dict", state_dict_value small_model)].

(** A network of the layout of [Network(3, 2, [4])] none of whose parameter
    values is one the constructor draws from the counting generator. *)
Definition sevens_model : Network :=
  {| hidden_layers :=
       [{| in_features := 3; out_features := 4;
           weight := {| shape := [4; 3]%Z;
                        data := [70; 71; 72; 73; 74; 75; 76; 77; 78; 79; 80; 81]%Z |};
           bias := {| shape := [4]%Z; data := [82; 83; 84; 85]%Z |} |}];
     output :=
       {| in_features := 4; out_features := 2;
          weight := {| shape := [2; 4]%Z;
                       data := [86; 87; 88; 89; 90; 91; 92; 93]%Z |};
          bias := {| shape := [2]%Z; data := [94; 95]%Z |} |} |}.

(** A record holding the parameters of [sevens_model], its keys and the
    names of its state_dict in another order than the save step writes. *)
Definition record_sevens : value :=
  VDict [("state_dict",
          VDict [("output.bias", VTensor (bias (output sevens_model)));
                 ("hidden_layers.0.weight",
                  VTensor {| shape := [4; 3]%Z;
                             data := [70; 71; 72; 73; 74; 75; 76; 77; 78; 79; 80; 81]%Z |});
                 ("output.weight", VTensor (weight (output sevens_model)));
                 ("hidden_layers.0.bias",
                  VTensor {| shape := [4]%Z; data := [82; 83; 84; 85]%Z |})]);
         ("hidden_layers", VList [VInt 4]);
         ("output_size", VInt 2);
         ("input_size", VInt 3)].


(** A record without ['state_dict'] whose input size is negative. *)
Definition record_negative_input : value :=
  VDict [("input_size", VInt (-1));
         ("output_size", VInt 10);
         ("hidden_layers", VList [VInt 5])].

(** A record without ['output_size']. *)
Definition record_without_output_size : value :=
  VDict [("input_size", VInt 3);
         ("hidden_layers", VList [VInt 4]);
         ("state_dict", VDict [])].

End Checkpoint.

(** * Proofs about the training loop *)

Module TrainingFacts.
Import Training.

Section Facts.
Context {F : Framework}.

Lemma training_pass_fst (t : trainer) (b : batch) :
  fst (training_pass t b) = step (backward (batch_loss (weights t) b) (zero_grad t)).
Proof. reflexivity. Qed.


(** The inner loop, from any accumulator: the network goes through the
    batches in order and the accumulator receives their losses from left to
    right. *)
Lemma inner_fold (bs : list batch) : forall (t : trainer) (n : number),
  fold_left
    (fun (acc : trainer * number) (b : batch) =>
       let '(t1, loss) := training_pass (fst acc) b in
       (t1, iadd_float (snd acc) loss))
    bs (t, n)
  = (after_batches bs t,
     match bs with
     | [] => n
     | _ :: _ => Float (fold_left float_add (pass_losses bs t) (to_float n))
     end).
Proof.
  induction bs as [|b bs IH]; intros t n.
  - reflexivity.
  - cbn [fold_left fst snd].
    destruct (training_pass t b) as [t1 l] eqn:E.
    rewrite IH. unfold after_batches. cbn [fold_left pass_losses].
    rewrite E. cbn [fst].
    destruct bs as [|b' bs']; reflexivity.
Qed.

Lemma pass_losses_length (bs : list batch) : forall t : trainer,
  List.length (pass_losses bs t) = List.length bs.
Proof.
  induction bs as [|b bs IH]; intros t; cbn [pass_losses].
  - reflexivity.
  - destruct (training_pass t b) as [t1 l]. cbn. now rewrite IH.
Qed.

Lemma inner_loop_spec (bs : list batch) (t : trainer) :
  bs <> [] ->
  inner_loop bs t
  = (after_batches bs t,
     Float (fold_left float_add (pass_losses bs t) (float_of_int 0))).
Proof.
  intros Hne. unfold inner_loop. rewrite inner_fold.
  destruct bs; [congruence | reflexivity].
Qed.

Lemma epoch_body_spec (bs : list batch) (e : nat) (s : session) :
  bs <> [] ->
  epoch_body (loader_of bs) e s
  = ({| net := after_batches bs (net s);
        stdout := stdout s ++ [loss_line (pass_losses bs (net s))] |}, Ok tt).
Proof.
  intros Hne. unfold epoch_body. cbn [dl_iter dl_len loader_of].
  rewrite inner_loop_spec by assumption.
  unfold truediv.
  destruct (Z.eqb_spec (Z.of_nat (List.length bs)) 0) as [E|E].
  - destruct bs; [congruence | cbn in E; lia].
  - unfold loss_line, mean_loss. rewrite pass_losses_length. reflexivity.
Qed.

Lemma for_range_spec (bs : list batch) (es : list nat) : forall s : session,
  bs <> [] ->
  for_range (loader_of bs) es s
  = ({| net := Nat.iter (List.length es) (after_batches bs) (net s);
        stdout := stdout s ++ epoch_lines (List.length es) bs (net s) |}, Ok tt).
Proof.
  induction es as [|e es IH]; intros s Hne.
  - cbn. rewrite app_nil_r. now destruct s.
  - cbn [for_range]. rewrite epoch_body_spec by assumption.
    rewrite IH by assumption. cbn [net stdout List.length epoch_lines].
    rewrite <- app_assoc. cbn [app].
    f_equal. f_equal.
    symmetry. apply Nat.iter_succ_r.
Qed.

(** A loader that reshuffles: as long as every pass yields [len(trainloader)]
    batches, and at least one, each epoch prints its mean loss. *)
Lemma for_range_shuffled (trainloader : DataLoader) (es : list nat) :
  forall s : session,
  dl_len trainloader <> 0 ->
  (forall e, In e es -> List.length (dl_iter trainloader e) = dl_len trainloader) ->
  for_range trainloader es s
  = ({| net := after_epochs trainloader es (net s);
        stdout := stdout s ++ loader_lines trainloader es (net s) |}, Ok tt).
Proof.
  induction es as [|e es IH]; intros s Hlen Hpass.
  - cbn. rewrite app_nil_r. now destruct s.
  - assert (List.length (dl_iter trainloader e) = dl_len trainloader) as He
      by (apply Hpass; now left).
    cbn [for_range]. unfold epoch_body, inner_loop. rewrite inner_fold.
    destruct (dl_iter trainloader e) as [|b bs] eqn:Eb;
      [cbn in He; congruence|].
    unfold truediv.
    destruct (Z.eqb_spec (Z.of_nat (dl_len trainloader)) 0) as [E|_]; [lia|].
    rewrite IH by (auto; intros; apply Hpass; now right).
    cbn [net stdout loader_lines after_epochs fold_left]. rewrite Eb.
    rewrite <- app_assoc. cbn [app]. unfold loss_line, mean_loss.
    rewrite pass_losses_length, He. reflexivity.
Qed.

Lemma epoch_lines_length (n : nat) (bs : list batch) : forall t : trainer,
  List.length (epoch_lines n bs t) = n.
Proof.
  induction n as [|n IH]; intros t; cbn; [reflexivity | now rewrite IH].
Qed.

Lemma after_batches_app (bs1 bs2 : list batch) (t : trainer) :
  after_batches (bs1 ++ bs2) t = after_batches bs2 (after_batches bs1 t).
Proof. unfold after_batches. apply fold_left_app. Qed.

Lemma iter_after_batches (n : nat) (bs : list batch) : forall t : trainer,
  Nat.iter n (after_batches bs) t = after_batches (List.concat (repeat bs n)) t.
Proof.
  induction n as [|n IH]; intros t.
  - reflexivity.
  - rewrite Nat.iter_succ_r. cbn [repeat List.concat].
    rewrite after_batches_app. apply IH.
Qed.

Lemma epoch_lines_nth (n : nat) (bs : list batch) : forall (t : trainer) (k : nat),
  k < n ->
  nth_error (epoch_lines n bs t) k
  = Some (loss_line (pass_losses bs (Nat.iter k (after_batches bs) t))).
Proof.
  induction n as [|n IH]; intros t k Hk; [lia|].
  destruct k as [|k]; cbn [epoch_lines nth_error].
  - reflexivity.
  - rewrite IH by lia. now rewrite Nat.iter_succ_r.
Qed.

(** With a gradient buffer that is zeroed before each backward pass, one
    training pass is one step of plain gradient descent. *)
Lemma training_pass_sgd (t : trainer) (b : batch) :
  (forall g0 g : grads, accumulate (zero_ g0) g = g) ->
  fst (training_pass t b)
  = {| weights := sgd_update (weights t) (batch_gradient (weights t) b);
       grad := Some (batch_gradient (weights t) b) |}.
Proof.
  intros Hzero. rewrite training_pass_fst.
  unfold step, backward, zero_grad, batch_gradient. cbn [grad weights].
  destruct (grad t) as [g0|]; cbn [option_map]; [rewrite Hzero|]; reflexivity.
Qed.

Lemma weights_after_batches (bs : list batch) :
  (forall g0 g : grads, accumulate (zero_ g0) g = g) ->
  forall t : trainer,
  weights (after_batches bs t) = sgd_weights bs (weights t).
Proof.
  intros Hzero. induction bs as [|b bs IH]; intros t.
  - reflexivity.
  - unfold after_batches, sgd_weights in *. cbn [fold_left].
    rewrite IH. now rewrite training_pass_sgd.
Qed.

Lemma concat_repeat_nil {A : Type} (n : nat) :
  List.concat (repeat (@nil A) n) = [].
Proof. induction n; [reflexivity | exact IHn]. Qed.

Lemma train_loop_no_batches (n : nat) (s : session) :
  net (fst (train_loop n (loader_of []) s)) = net s.
Proof.
  unfold train_loop. destruct n as [|n]; [reflexivity|].
  cbn [seq for_range]. unfold epoch_body. cbn. reflexivity.
Qed.

(** C7, as amended: for every epoch count and every finite NON-EMPTY batch
    sequence the training loop terminates without an exception, having run
    [epochs] outer iterations that each went once through the batches (the
    network has gone through the batches [epochs] times in a row), and it
    has printed exactly [epochs] lines, the [k]-th of which is the
    training-loss line of epoch [k]: the left-to-right sum of that epoch's
    per-batch losses divided by the number of batches. *)
Theorem train_loop_terminates (epochs : nat) (bs : list batch) (s : session) :
  bs <> [] ->
  train_loop epochs (loader_of bs) s
  = ({| net := after_batches (List.concat (repeat bs epochs)) (net s);
        stdout := stdout s ++ epoch_lines epochs bs (net s) |}, Ok tt)
  /\ List.length (epoch_lines epochs bs (net s)) = epochs
  /\ forall k : nat, k < epochs ->
       nth_error (epoch_lines epochs bs (net s)) k
       = Some ("Training loss: " ++
               float_str
                 (float_truediv
                    (fold_left float_add
                       (pass_losses bs (after_batches (List.concat (repeat bs k)) (net s)))
                       (float_of_int 0))
                    (float_of_int (Z.of_nat (List.length bs)))))%string.
Proof.
  intros Hne. split; [|split].
  - unfold train_loop. rewrite for_range_spec by assumption.
    rewrite length_seq. now rewrite iter_after_batches.
  - apply epoch_lines_length.
  - intros k Hk. rewrite epoch_lines_nth by assumption.
    rewrite iter_after_batches. unfold loss_line, mean_loss.
    now rewrite pass_losses_length.
Qed.

(** C10: every training pass zeroes the gradients before its backward pass,
    so (adding a gradient to a zeroed buffer giving that gradient) the buffer
    that [optimizer.step()] reads holds the gradient of the current batch's
    loss only, whatever the buffer held before; over the whole loop the
    weights follow plain gradient descent on the successive batches, nothing
    being carried from one batch or epoch to the next. *)
Theorem zero_grad_before_backward :
  (forall g0 g : grads, accumulate (zero_ g0) g = g) ->
  (forall (t : trainer) (b : batch),
     fst (training_pass t b)
     = step (backward (batch_loss (weights t) b) (zero_grad t))
     /\ grad (fst (training_pass t b)) = Some (batch_gradient (weights t) b)
     /\ weights (fst (training_pass t b))
        = sgd_update (weights t) (batch_gradient (weights t) b))
  /\ (forall (epochs : nat) (bs : list batch) (s : session),
        weights (net (fst (train_loop epochs (loader_of bs) s)))
        = sgd_weights (List.concat (repeat bs epochs)) (weights (net s))).
Proof.
  intros Hzero. split.
  - intros t b. split; [apply training_pass_fst|].
    rewrite training_pass_sgd by assumption. split; reflexivity.
  - intros n bs s. destruct bs as [|b bs].
    + rewrite train_loop_no_batches, concat_repeat_nil. reflexivity.
    + unfold train_loop. rewrite for_range_spec by discriminate.
      cbn [fst net]. rewrite length_seq, iter_after_batches.
      now apply weights_after_batches.
Qed.

End Facts.

(** C7, counterexample: on an empty batch sequence the first epoch divides
    [0] by [len(trainloader) = 0]; the loop stops with a
    [ZeroDivisionError] and has printed nothing. *)
Lemma train_loop_empty_loader_raises :
  train_loop (F := toy) 1 (loader_of []) (toy_session 1 None [])
  = (toy_session 1 None [], Raise ZeroDivisionError).
Proof. reflexivity. Qed.

Lemma train_loop_terminates_witness :
  toy_batches <> []
  /\ train_loop (F := toy) 2 (loader_of toy_batches) (toy_session 1 None [])
     = (toy_session (-3) (Some 6%Z)
          ["Training loss: neg"; "Training loss: nonneg"], Ok tt).
Proof.
  split; [discriminate|].
  rewrite (proj1 (train_loop_terminates (F := toy) 2 toy_batches
                    (toy_session 1 None []) ltac:(discriminate))).
  reflexivity.
Defined.

Lemma zero_grad_before_backward_witness :
  (forall g0 g : Z, (0 + g)%Z = g)
  /\ weights (net (fst (train_loop (F := toy) 2 (loader_of toy_batches)
                            (toy_session 1 (Some 50%Z) []))))
     = (-3)%Z.
Proof.
  split; [intros g0 g; apply Z.add_0_l|].
  rewrite (proj2 (zero_grad_before_backward (F := toy)
                    (fun g0 g => Z.add_0_l g))).
  reflexivity.
Defined.

End TrainingFacts.

(** * Proofs about checkpoints *)

Module CheckpointFacts.
Import Checkpoint.

Lemma dict_get_set_same {A : Type} (d : list (string * A)) (k : string) (v : A) :
  dict_get (dict_set d k v) k = Some v.
Proof.
  induction d as [|[k1 v1] d IH]; cbn.
  - now rewrite String.eqb_refl.
  - destruct (String.eqb_spec k1 k) as [E|E]; cbn.
    + now rewrite String.eqb_refl.
    + destruct (String.eqb_spec k1 k); [contradiction | exact IH].
Qed.

Lemma dict_get_map {A B : Type} (f : string -> A -> B) (d : list (string * A))
  (k : string) :
  dict_get (map (fun e => (fst e, f (fst e) (snd e))) d) k
  = option_map (f k) (dict_get d k).
Proof.
  induction d as [|[k1 v1] d IH]; cbn; [reflexivity|].
  destruct (String.eqb_spec k1 k) as [E|E]; [now subst | exact IH].
Qed.

Lemma keys_map {A B : Type} (f : string -> A -> B) (d : list (string * A)) :
  keys (map (fun e => (fst e, f (fst e) (snd e))) d) = keys d.
Proof.
  unfold keys. rewrite map_map. apply map_ext. reflexivity.
Qed.

Lemma dict_get_in_keys {A : Type} (d : list (string * A)) (k : string) (v : A) :
  dict_get d k = Some v -> In k (keys d) /\ In (k, v) d.
Proof.
  induction d as [|[k1 v1] d IH]; cbn; [discriminate|].
  destruct (String.eqb_spec k1 k) as [E|E].
  - intros [= ->]. subst. auto.
  - intros H. destruct (IH H). auto.
Qed.

Lemma dict_get_none {A : Type} (d : list (string * A)) (k : string) :
  dict_get d k = None <-> ~ In k (keys d).
Proof.
  induction d as [|[k1 v1] d IH]; cbn; [tauto|].
  destruct (String.eqb_spec k1 k) as [E|E].
  - split; [discriminate | intros H; exfalso; apply H; now left].
  - rewrite IH. tauto.
Qed.

Lemma mem_In (k : string) (ks : list string) : mem k ks = true <-> In k ks.
Proof.
  unfold mem. rewrite existsb_exists. split.
  - intros [x [Hin Hx]]. apply String.eqb_eq in Hx. now subst.
  - intros Hin. exists k. split; [assumption | apply String.eqb_refl].
Qed.

Lemma dict_get_app {A : Type} (d1 d2 : list (string * A)) (k : string) :
  dict_get (d1 ++ d2) k
  = match dict_get d1 k with
    | Some v => Some v
    | None => dict_get d2 k
    end.
Proof.
  induction d1 as [|[k1 v1] d1 IH]; cbn; [reflexivity|].
  destruct (k1 =? k)%string; [reflexivity | exact IH].
Qed.

Lemma shape_eqb_eq (s1 s2 : list Z) : shape_eqb s1 s2 = true <-> s1 = s2.
Proof.
  revert s2. induction s1 as [|a s1 IH]; intros [|b s2]; cbn;
    try (split; [discriminate | congruence]); [tauto|].
  rewrite andb_true_iff, Z.eqb_eq, IH. split.
  - intros [-> ->]. reflexivity.
  - intros [= -> ->]. auto.
Qed.

Lemma shape_eqb_refl (s : list Z) : shape_eqb s s = true.
Proof. now apply shape_eqb_eq. Qed.

(** *** Parameter names are pairwise distinct *)

Lemma append_assoc (a b c : string) : ((a ++ b) ++ c = a ++ (b ++ c))%string.
Proof. induction a as [|x a IH]; cbn; [reflexivity | now rewrite IH]. Qed.

Lemma append_inj_r (p a b : string) : (p ++ a = p ++ b)%string -> a = b.
Proof. induction p as [|x p IH]; cbn; [auto | intros [= H]; auto]. Qed.

Lemma no_dot_index_str (i : nat) : no_dot (index_str i) = true.
Proof.
  unfold index_str. generalize (Nat.to_uint i) as u.
  induction u; cbn; auto.
Qed.

Lemma index_str_inj (i j : nat) : index_str i = index_str j -> i = j.
Proof.
  unfold index_str. intros H.
  apply DecimalNat.Unsigned.to_uint_inj.
  pose proof (NilEmpty.usu (Nat.to_uint i)) as Hi.
  pose proof (NilEmpty.usu (Nat.to_uint j)) as Hj.
  rewrite H in Hi. congruence.
Qed.

Lemma before_dot_app (d f : string) :
  no_dot d = true -> before_dot (d ++ String "." f)%string = d.
Proof.
  induction d as [|c d IH]; cbn; [reflexivity|].
  intros H. apply andb_true_iff in H. destruct H as [Hc Hd].
  destruct (c =? ".")%char; [discriminate|]. now rewrite IH.
Qed.

Lemma after_dot_app (d f : string) :
  no_dot d = true -> after_dot (d ++ String "." f)%string = f.
Proof.
  induction d as [|c d IH]; cbn; [reflexivity|].
  intros H. apply andb_true_iff in H. destruct H as [Hc Hd].
  destruct (c =? ".")%char; [discriminate|]. now rewrite IH.
Qed.

Lemma layer_key_shape (i : nat) (f : string) :
  (layer_prefix i ++ f = "hidden_layers." ++ (index_str i ++ String "." f))%string.
Proof.
  unfold layer_prefix. rewrite append_assoc. f_equal. apply append_assoc.
Qed.

Lemma layer_key_inj (i j : nat) (f g : string) :
  (layer_prefix i ++ f = layer_prefix j ++ g)%string -> i = j /\ f = g.
Proof.
  rewrite !layer_key_shape. intros H. apply append_inj_r in H.
  pose proof (f_equal before_dot H) as Hb.
  pose proof (f_equal after_dot H) as Ha.
  rewrite !before_dot_app in Hb by apply no_dot_index_str.
  rewrite !after_dot_app in Ha by apply no_dot_index_str.
  split; [now apply index_str_inj | assumption].
Qed.

Lemma layer_key_not_output (i : nat) (f g : string) :
  (layer_prefix i ++ f)%string <> ("output." ++ g)%string.
Proof. rewrite layer_key_shape. cbn. discriminate. Qed.

Lemma dict_get_hidden_output (ls : list Linear) (g : string) : forall i : nat,
  dict_get (hidden_entries i ls) ("output." ++ g)%string = None.
Proof.
  induction ls as [|l ls IH]; intros i; [reflexivity|].
  cbn [hidden_entries linear_entries app dict_get].
  destruct (String.eqb_spec (layer_prefix i ++ "weight") ("output." ++ g)) as [E|_];
    [now apply layer_key_not_output in E|].
  destruct (String.eqb_spec (layer_prefix i ++ "bias") ("output." ++ g)) as [E|_];
    [now apply layer_key_not_output in E|].
  apply IH.
Qed.

Lemma dict_get_hidden_weight (ls : list Linear) : forall i k : nat,
  dict_get (hidden_entries i ls) (layer_prefix (i + k) ++ "weight")%string
  = option_map weight (nth_error ls k).
Proof.
  induction ls as [|l ls IH]; intros i k.
  - now destruct k.
  - cbn [hidden_entries linear_entries app dict_get].
    destruct (String.eqb_spec (layer_prefix i ++ "weight")
                              (layer_prefix (i + k) ++ "weight")) as [E|E].
    + apply layer_key_inj in E. destruct E as [E _].
      assert (k = 0) as -> by lia. reflexivity.
    + destruct (String.eqb_spec (layer_prefix i ++ "bias")
                                (layer_prefix (i + k) ++ "weight")) as [E'|_];
        [apply layer_key_inj in E'; destruct E'; discriminate|].
      destruct k as [|k]; [rewrite Nat.add_0_r in E; congruence|].
      replace (i + S k) with (S i + k) by lia. apply IH.
Qed.

Lemma dict_get_hidden_bias (ls : list Linear) : forall i k : nat,
  dict_get (hidden_entries i ls) (layer_prefix (i + k) ++ "bias")%string
  = option_map bias (nth_error ls k).
Proof.
  induction ls as [|l ls IH]; intros i k.
  - now destruct k.
  - cbn [hidden_entries linear_entries app dict_get].
    destruct (String.eqb_spec (layer_prefix i ++ "weight")
                              (layer_prefix (i + k) ++ "bias")) as [E|_];
      [apply layer_key_inj in E; destruct E; discriminate|].
    destruct (String.eqb_spec (layer_prefix i ++ "bias")
                              (layer_prefix (i + k) ++ "bias")) as [E|E].
    + apply layer_key_inj in E. destruct E as [E _].
      assert (k = 0) as -> by lia. reflexivity.
    + destruct k as [|k]; [rewrite Nat.add_0_r in E; congruence|].
      replace (i + S k) with (S i + k) by lia. apply IH.
Qed.

Lemma state_dict_hidden_weight (m : Network) (k : nat) (l : Linear) :
  nth_error (hidden_layers m) k = Some l ->
  dict_get (state_dict m) (layer_prefix k ++ "weight")%string = Some (weight l).
Proof.
  intros H. unfold state_dict. rewrite dict_get_app.
  pose proof (dict_get_hidden_weight (hidden_layers m) 0 k) as E.
  change (0 + k) with k in E. rewrite E, H. reflexivity.
Qed.

Lemma state_dict_hidden_bias (m : Network) (k : nat) (l : Linear) :
  nth_error (hidden_layers m) k = Some l ->
  dict_get (state_dict m) (layer_prefix k ++ "bias")%string = Some (bias l).
Proof.
  intros H. unfold state_dict. rewrite dict_get_app.
  pose proof (dict_get_hidden_bias (hidden_layers m) 0 k) as E.
  change (0 + k) with k in E. rewrite E, H. reflexivity.
Qed.

Lemma state_dict_output_weight (m : Network) :
  dict_get (state_dict m) "output.weight" = Some (weight (output m)).
Proof.
  unfold state_dict. rewrite dict_get_app.
  pose proof (dict_get_hidden_output (hidden_layers m) "weight" 0) as E.
  cbn [append] in E. now rewrite E.
Qed.

Lemma state_dict_output_bias (m : Network) :
  dict_get (state_dict m) "output.bias" = Some (bias (output m)).
Proof.
  unfold state_dict. rewrite dict_get_app.
  pose proof (dict_get_hidden_output (hidden_layers m) "bias" 0) as E.
  cbn [append] in E. now rewrite E.
Qed.

(** *** [load_state_dict] against its description *)

Lemma extend_nil (r : report) : extend r [] [] = r.
Proof. destruct r. unfold extend. cbn. now rewrite !app_nil_r. Qed.

Lemma extend_extend (r : report) (a b c d : list string) :
  extend (extend r a b) c d = extend r (a ++ c) (b ++ d).
Proof. unfold extend. cbn. now rewrite !app_assoc. Qed.

Lemma missing_in_app (sd : list (string * value)) (es1 es2 : list (string * tensor)) :
  missing_in sd (es1 ++ es2) = missing_in sd es1 ++ missing_in sd es2.
Proof. unfold missing_in, keys. now rewrite map_app, filter_app. Qed.

Lemma mismatch_in_app (sd : list (string * value)) (es1 es2 : list (string * tensor)) :
  mismatch_in sd (es1 ++ es2) = mismatch_in sd es1 ++ mismatch_in sd es2.
Proof. unfold mismatch_in, keys. now rewrite filter_app, map_app. Qed.

Lemma load_param_spec (sd : list (string * value)) (key : string) (p : tensor)
  (r : report) :
  aborted r = None ->
  is_bad sd (key, p) = false ->
  load_param sd key p r
  = (load_entry sd key p,
     extend r (missing_in sd [(key, p)]) (mismatch_in sd [(key, p)])).
Proof.
  intros Hr Hbad.
  unfold load_param, load_entry, missing_in, mismatch_in, is_missing,
    is_mismatch, is_bad in *.
  cbn [keys map filter fst snd] in *. rewrite Hr.
  destruct (dict_get sd key) as [[z|items|t|d]|]; try discriminate.
  - destruct (shape_eqb (shape t) (shape p)); cbn [negb keys map].
    + now rewrite extend_nil.
    + unfold extend. rewrite Hr, app_nil_r. reflexivity.
  - unfold extend. cbn [keys map]. rewrite Hr, app_nil_r. reflexivity.
Qed.

Lemma load_param_abort (sd : list (string * value)) (key : string) (p : tensor)
  (r : report) :
  aborted (snd (load_param sd key p r))
  = match aborted r with
    | Some e => Some e
    | None => if is_bad sd (key, p) then Some AttributeError else None
    end.
Proof.
  unfold load_param, is_bad. cbn [fst snd].
  destruct (aborted r) as [e|] eqn:Hr; [exact Hr|].
  destruct (dict_get sd key) as [[z|items|t|d]|]; try reflexivity.
  destruct (shape_eqb (shape t) (shape p)); [exact Hr | reflexivity].
Qed.

Lemma load_linear_spec (sd : list (string * value)) (prefix : string) (l : Linear)
  (r : report) :
  aborted r = None ->
  existsb (is_bad sd) (linear_entries prefix l) = false ->
  load_linear sd prefix l r
  = (map_linear (load_entry sd) prefix l,
     extend r (missing_in sd (linear_entries prefix l))
              (mismatch_in sd (linear_entries prefix l))).
Proof.
  intros Hr Hbad. cbn [linear_entries existsb] in Hbad.
  rewrite orb_false_r in Hbad. apply orb_false_iff in Hbad.
  destruct Hbad as [Hw Hb].
  unfold load_linear.
  rewrite (load_param_spec sd _ (weight l) r Hr Hw).
  rewrite load_param_spec by (cbn; assumption).
  rewrite extend_extend.
  change (linear_entries prefix l)
    with ([((prefix ++ "weight")%string, weight l)]
          ++ [((prefix ++ "bias")%string, bias l)]).
  now rewrite missing_in_app, mismatch_in_app.
Qed.

Lemma load_linear_abort (sd : list (string * value)) (prefix : string) (l : Linear)
  (r : report) :
  aborted (snd (load_linear sd prefix l r))
  = match aborted r with
    | Some e => Some e
    | None =>
        if existsb (is_bad sd) (linear_entries prefix l)
        then Some AttributeError else None
    end.
Proof.
  unfold load_linear.
  pose proof (load_param_abort sd (prefix ++ "weight") (weight l) r) as H1.
  destruct (load_param sd (prefix ++ "weight") (weight l) r) as [w r1].
  pose proof (load_param_abort sd (prefix ++ "bias") (bias l) r1) as H2.
  destruct (load_param sd (prefix ++ "bias") (bias l) r1) as [b r2].
  cbn [snd] in *. rewrite H2, H1. cbn [linear_entries existsb].
  destruct (aborted r); [reflexivity|].
  destruct (is_bad sd ((prefix ++ "weight")%string, weight l)); [reflexivity|].
  cbn [orb]. now rewrite orb_false_r.
Qed.

Lemma load_hidden_spec (sd : list (string * value)) (ls : list Linear) :
  forall (i : nat) (r : report),
  aborted r = None ->
  existsb (is_bad sd) (hidden_entries i ls) = false ->
  load_hidden sd i ls r
  = (map_hidden (load_entry sd) i ls,
     extend r (missing_in sd (hidden_entries i ls))
              (mismatch_in sd (hidden_entries i ls))).
Proof.
  induction ls as [|l ls IH]; intros i r Hr Hbad.
  - cbn. now rewrite extend_nil.
  - cbn [hidden_entries] in *. rewrite existsb_app in Hbad.
    apply orb_false_iff in Hbad. destruct Hbad as [Hl Hls].
    cbn [load_hidden map_hidden].
    rewrite load_linear_spec by assumption.
    rewrite IH by assumption.
    now rewrite extend_extend, missing_in_app, mismatch_in_app.
Qed.

Lemma load_hidden_abort (sd : list (string * value)) (ls : list Linear) :
  forall (i : nat) (r : report),
  aborted (snd (load_hidden sd i ls r))
  = match aborted r with
    | Some e => Some e
    | None =>
        if existsb (is_bad sd) (hidden_entries i ls)
        then Some AttributeError else None
    end.
Proof.
  induction ls as [|l ls IH]; intros i r.
  - cbn. now destruct (aborted r).
  - cbn [load_hidden hidden_entries].
    pose proof (load_linear_abort sd (layer_prefix i) l r) as H1.
    destruct (load_linear sd (layer_prefix i) l r) as [l1 r1].
    pose proof (IH (S i) r1) as H2.
    destruct (load_hidden sd (S i) ls r1) as [ls1 r2].
    cbn [snd] in *. rewrite H2, H1, existsb_app.
    destruct (aborted r); [reflexivity|].
    now destruct (existsb (is_bad sd) (linear_entries (layer_prefix i) l)).
Qed.

(** The bookkeeping of [load_state_dict] computes what its documentation
    says: every parameter is replaced by the recorded array of its name and
    shape, and the call raises exactly when a name is missing, a name is
    unexpected or a shape differs. *)
Lemma load_state_dict_spec (m : Network) (sd : list (string * value)) :
  existsb (is_bad sd) (state_dict m) = false ->
  load_state_dict m (VDict sd) = (map_params (load_entry sd) m, verdict sd m).
Proof.
  intros Hbad. unfold state_dict in Hbad. rewrite existsb_app in Hbad.
  apply orb_false_iff in Hbad. destruct Hbad as [Hh Ho].
  unfold load_state_dict.
  rewrite load_hidden_spec by (reflexivity || assumption).
  rewrite load_linear_spec by (reflexivity || assumption).
  rewrite extend_extend. cbn [aborted extend no_report missing_keys size_mismatch app].
  unfold verdict, map_params, state_dict.
  rewrite missing_in_app, mismatch_in_app.
  match goal with |- (if ?c then _ else _) = _ => destruct c end; reflexivity.
Qed.

Lemma load_state_dict_bad (m : Network) (sd : list (string * value)) :
  existsb (is_bad sd) (state_dict m) = true ->
  snd (load_state_dict m (VDict sd)) = Raise AttributeError.
Proof.
  intros Hbad. unfold state_dict in Hbad. rewrite existsb_app in Hbad.
  unfold load_state_dict.
  pose proof (load_hidden_abort sd (hidden_layers m) 0 no_report) as H1.
  destruct (load_hidden sd 0 (hidden_layers m) no_report) as [hl r1].
  pose proof (load_linear_abort sd "output." (output m) r1) as H2.
  destruct (load_linear sd "output." (output m) r1) as [out r2].
  cbn [snd aborted no_report] in *. rewrite H2, H1.
  destruct (existsb (is_bad sd) (hidden_entries 0 (hidden_layers m)));
    [reflexivity|].
  cbn [orb] in Hbad. now rewrite Hbad.
Qed.


Lemma all_tensors_not_bad (sd : list (string * value)) (es : list (string * tensor)) :
  all_tensors sd = true -> existsb (is_bad sd) es = false.
Proof.
  intros Hall. apply not_true_is_false. intros H.
  apply existsb_exists in H. destruct H as [e [_ He]].
  unfold is_bad in He.
  destruct (dict_get sd (fst e)) as [v|] eqn:E; [|discriminate].
  apply dict_get_in_keys in E. destruct E as [_ Hin].
  unfold all_tensors in Hall. rewrite forallb_forall in Hall.
  specialize (Hall _ Hin). cbn in Hall. destruct v; discriminate.
Qed.

Lemma filter_nil_inv {A : Type} (f : A -> bool) (l : list A) :
  filter f l = [] -> forall x, In x l -> f x = false.
Proof.
  induction l as [|a l IH]; cbn; [contradiction|].
  destruct (f a) eqn:E; [discriminate|].
  intros H x [<-|Hx]; auto.
Qed.

Lemma filter_nil_intro {A : Type} (f : A -> bool) (l : list A) :
  (forall x, In x l -> f x = false) -> filter f l = [].
Proof.
  induction l as [|a l IH]; cbn; intros H; [reflexivity|].
  rewrite (H a) by now left. apply IH. intros x Hx. apply H. now right.
Qed.

Lemma is_nil_true {A : Type} (l : list A) : is_nil l = true <-> l = [].
Proof. destruct l; cbn; split; congruence. Qed.

Lemma verdict_ok (sd : list (string * value)) (m : Network) :
  is_ok (verdict sd m) = true
  <-> missing_in sd (state_dict m) = [] /\ unexpected_keys sd m = []
      /\ mismatch_in sd (state_dict m) = [].
Proof.
  unfold verdict.
  destruct (is_nil (missing_in sd (state_dict m))
            && is_nil (unexpected_keys sd m)
            && is_nil (mismatch_in sd (state_dict m))) eqn:E; cbn.
  - apply andb_true_iff in E. destruct E as [E E3].
    apply andb_true_iff in E. destruct E as [E1 E2].
    apply is_nil_true in E1, E2, E3. tauto.
  - split; [discriminate|]. intros [E1 [E2 E3]].
    rewrite E1, E2, E3 in E. discriminate.
Qed.

Lemma tensor_copy (t p : tensor) :
  shape t = shape p -> {| shape := shape p; data := data t |} = t.
Proof. destruct t. cbn. now intros ->. Qed.

Lemma load_entry_shape (sd : list (string * value)) (key : string) (p : tensor) :
  shape (load_entry sd key p) = shape p.
Proof.
  unfold load_entry. destruct (dict_get sd key) as [[| |t|]|]; try reflexivity.
  now destruct (shape_eqb (shape t) (shape p)).
Qed.

Lemma hidden_entries_map (f : string -> tensor -> tensor) (ls : list Linear) :
  forall i : nat,
  hidden_entries i (map_hidden f i ls)
  = map (fun e => (fst e, f (fst e) (snd e))) (hidden_entries i ls).
Proof.
  induction ls as [|l ls IH]; intros i; [reflexivity|].
  cbn [map_hidden hidden_entries linear_entries app map fst snd].
  now rewrite IH.
Qed.

Lemma state_dict_map_params (f : string -> tensor -> tensor) (m : Network) :
  state_dict (map_params f m)
  = map (fun e => (fst e, f (fst e) (snd e))) (state_dict m).
Proof.
  unfold state_dict, map_params. cbn [hidden_layers output].
  now rewrite hidden_entries_map, map_app.
Qed.

(** When [load_state_dict] returns, every recorded array has been copied
    into the parameter of its name, and the names of the record are the
    names of the parameters. *)
Lemma load_state_dict_ok_inv (fresh m : Network) (sd : list (string * value))
  (u : unit) :
  load_state_dict fresh (VDict sd) = (m, Ok u) ->
  m = map_params (load_entry sd) fresh
  /\ forall name,
       dict_get sd name = option_map VTensor (dict_get (state_dict m) name).
Proof.
  intros H.
  destruct (existsb (is_bad sd) (state_dict fresh)) eqn:Hbad.
  { apply load_state_dict_bad in Hbad. rewrite H in Hbad. discriminate. }
  rewrite load_state_dict_spec in H by assumption.
  injection H as Hm Hv. subst m. split; [reflexivity|].
  assert (is_ok (verdict sd fresh) = true) as Hok by now rewrite Hv.
  apply verdict_ok in Hok. destruct Hok as [Hmiss [Hunx Hmism]].
  intros name. rewrite state_dict_map_params.
  rewrite (dict_get_map (load_entry sd)).
  destruct (dict_get (state_dict fresh) name) as [p|] eqn:Ep; cbn [option_map].
  - apply dict_get_in_keys in Ep. destruct Ep as [Hk He].
    pose proof (filter_nil_inv _ _ Hmiss name Hk) as H1.
    assert (is_bad sd (name, p) = false) as H2.
    { apply not_true_is_false. intros Hb.
      apply not_true_iff_false in Hbad. apply Hbad.
      apply existsb_exists. now exists (name, p). }
    assert (is_mismatch sd (name, p) = false) as H3.
    { unfold mismatch_in, keys in Hmism. apply map_eq_nil in Hmism.
      exact (filter_nil_inv _ _ Hmism (name, p) He). }
    unfold is_missing, is_bad, is_mismatch, load_entry in *. cbn [fst snd] in *.
    destruct (dict_get sd name) as [[| |t|]|]; try discriminate.
    apply negb_false_iff in H3. rewrite H3.
    apply shape_eqb_eq in H3. now rewrite tensor_copy.
  - destruct (dict_get sd name) as [v|] eqn:Es; [|reflexivity].
    apply dict_get_in_keys in Es. destruct Es as [Hk _].
    pose proof (filter_nil_inv _ _ Hunx name Hk) as H1.
    apply negb_false_iff, mem_In in H1.
    apply dict_get_none in Ep. contradiction.
Qed.

(** *** Layouts *)

Lemma linear_fits_inv (i o : Z) (l : Linear) :
  linear_fits i o l = true ->
  (0 <= i)%Z /\ (0 <= o)%Z /\ in_features l = i /\ out_features l = o
  /\ shape (weight l) = [o; i] /\ shape (bias l) = [o].
Proof.
  unfold linear_fits. rewrite !andb_true_iff, !Z.leb_le, !Z.eqb_eq, !shape_eqb_eq.
  tauto.
Qed.

Lemma linear_fits_intro (i o : Z) (l : Linear) :
  (0 <= i)%Z -> (0 <= o)%Z -> in_features l = i -> out_features l = o ->
  shape (weight l) = [o; i] -> shape (bias l) = [o] ->
  linear_fits i o l = true.
Proof.
  intros. unfold linear_fits.
  rewrite !andb_true_iff, !Z.leb_le, !Z.eqb_eq, !shape_eqb_eq. tauto.
Qed.

Lemma linear_fits_map (f : string -> tensor -> tensor) (prefix : string)
  (i o : Z) (l : Linear) :
  (forall k t, shape (f k t) = shape t) ->
  linear_fits i o (map_linear f prefix l) = linear_fits i o l.
Proof.
  intros Hf. unfold linear_fits, map_linear. cbn. now rewrite !Hf.
Qed.

Lemma chain_fits_map (f : string -> tensor -> tensor) (hs : list Z) :
  (forall k t, shape (f k t) = shape t) ->
  forall (prev : Z) (ls : list Linear) (i : nat),
  chain_fits prev hs (map_hidden f i ls) = chain_fits prev hs ls.
Proof.
  intros Hf. induction hs as [|h hs IH]; intros prev [|l ls] i; try reflexivity.
  cbn [map_hidden chain_fits]. now rewrite linear_fits_map, IH.
Qed.

Lemma has_arch_map_params (f : string -> tensor -> tensor) (i o : Z)
  (hs : list Z) (m : Network) :
  (forall k t, shape (f k t) = shape t) ->
  has_arch i o hs (map_params f m) = has_arch i o hs m.
Proof.
  intros Hf. unfold has_arch, map_params. cbn [hidden_layers output].
  now rewrite chain_fits_map, linear_fits_map.
Qed.

Lemma chain_fits_widths (hs : list Z) : forall (prev : Z) (ls : list Linear),
  chain_fits prev hs ls = true ->
  map out_features ls = hs
  /\ Forall (fun h => 0 <= h)%Z hs
  /\ (0 <= prev \/ hs = [])%Z
  /\ forallb linear_ok ls = true
  /\ (hs <> [] -> option_map in_features (hd_error ls) = Some prev).
Proof.
  induction hs as [|h hs IH]; intros prev [|l ls] H; try discriminate.
  - repeat split; auto. congruence.
  - cbn [chain_fits] in H. apply andb_true_iff in H. destruct H as [Hl Hc].
    pose proof Hl as Hl'.
    apply linear_fits_inv in Hl. destruct Hl as (Hi & Ho & E1 & E2 & E3 & E4).
    destruct (IH _ _ Hc) as (Hw & Hpos & _ & Hok & _).
    cbn [map forallb hd_error option_map]. repeat split.
    + now rewrite E2, Hw.
    + now constructor.
    + now left.
    + rewrite Hok, andb_true_r. unfold linear_ok.
      rewrite E1, E2, E3, E4. now rewrite !shape_eqb_refl.
    + intros _. now rewrite E1.
Qed.

Lemma has_arch_widths (i o : Z) (hs : list Z) (m : Network) :
  has_arch i o hs m = true ->
  hs <> []
  /\ map out_features (hidden_layers m) = hs
  /\ option_map in_features (hd_error (hidden_layers m)) = Some i
  /\ out_features (output m) = o
  /\ in_features (output m) = last hs i
  /\ (0 <= i)%Z /\ (0 <= o)%Z /\ Forall (fun h => 0 <= h)%Z hs
  /\ layers_ok m = true.
Proof.
  unfold has_arch. rewrite !andb_true_iff. intros [[Hne Hc] Hl].
  assert (hs <> []) as Hne' by (destruct hs; [discriminate | congruence]).
  destruct (chain_fits_widths _ _ _ Hc) as (Hw & Hpos & Hi & Hok & Hin).
  apply linear_fits_inv in Hl. destruct Hl as (Hlast & Ho & E1 & E2 & E3 & E4).
  repeat split; auto.
  - destruct Hi; [assumption | contradiction].
  - unfold layers_ok. rewrite Hok. unfold linear_ok.
    rewrite E1, E2, E3, E4. now rewrite !shape_eqb_refl.
Qed.

(** *** Loading the parameters of a network of the same layout *)

Lemma load_entry_found (sd : list (string * value)) (key : string) (p t : tensor) :
  dict_get sd key = Some (VTensor t) -> shape t = shape p ->
  load_entry sd key p = t
  /\ is_missing sd key = false /\ is_mismatch sd (key, p) = false.
Proof.
  intros Hget Hshape. unfold load_entry, is_missing, is_mismatch. cbn [fst snd].
  rewrite Hget, Hshape, shape_eqb_refl. rewrite <- Hshape.
  now rewrite tensor_copy.
Qed.

Lemma map_linear_load (sd : list (string * value)) (prefix : string) (i o : Z)
  (lf lm : Linear) :
  linear_fits i o lf = true -> linear_fits i o lm = true ->
  dict_get sd (prefix ++ "weight")%string = Some (VTensor (weight lm)) ->
  dict_get sd (prefix ++ "bias")%string = Some (VTensor (bias lm)) ->
  map_linear (load_entry sd) prefix lf = lm
  /\ missing_in sd (linear_entries prefix lf) = []
  /\ mismatch_in sd (linear_entries prefix lf) = [].
Proof.
  intros Hf Hm Hw Hb.
  apply linear_fits_inv in Hf, Hm.
  destruct Hf as (_ & _ & F1 & F2 & F3 & F4).
  destruct Hm as (_ & _ & M1 & M2 & M3 & M4).
  destruct (load_entry_found sd _ (weight lf) _ Hw) as (W1 & W2 & W3);
    [congruence|].
  destruct (load_entry_found sd _ (bias lf) _ Hb) as (B1 & B2 & B3);
    [congruence|].
  unfold map_linear, missing_in, mismatch_in.
  cbn [linear_entries keys map filter fst].
  rewrite W1, W2, W3, B1, B2, B3, F1, F2. cbn.
  split; [|split; reflexivity].
  destruct lm; cbn in *; congruence.
Qed.

Lemma map_hidden_load (sd : list (string * value)) (hs : list Z) :
  forall (prev : Z) (lsf lsm : list Linear) (i0 : nat),
  chain_fits prev hs lsf = true -> chain_fits prev hs lsm = true ->
  (forall k l, nth_error lsm k = Some l ->
     dict_get sd (layer_prefix (i0 + k) ++ "weight")%string = Some (VTensor (weight l))
     /\ dict_get sd (layer_prefix (i0 + k) ++ "bias")%string = Some (VTensor (bias l))) ->
  map_hidden (load_entry sd) i0 lsf = lsm
  /\ missing_in sd (hidden_entries i0 lsf) = []
  /\ mismatch_in sd (hidden_entries i0 lsf) = [].
Proof.
  induction hs as [|h hs IH]; intros prev [|lf lsf] [|lm lsm] i0 Hf Hm Hsd;
    try discriminate.
  - repeat split.
  - cbn [chain_fits] in Hf, Hm.
    apply andb_true_iff in Hf, Hm. destruct Hf as [Hf Hfs], Hm as [Hm Hms].
    destruct (Hsd 0 lm eq_refl) as [Hw Hb]. rewrite Nat.add_0_r in Hw, Hb.
    destruct (map_linear_load sd (layer_prefix i0) prev h lf lm Hf Hm Hw Hb)
      as (E1 & E2 & E3).
    destruct (IH h lsf lsm (S i0) Hfs Hms) as (R1 & R2 & R3).
    { intros k l Hk. replace (S i0 + k) with (i0 + S k) by lia.
      now apply Hsd. }
    cbn [map_hidden hidden_entries].
    rewrite missing_in_app, mismatch_in_app, E1, E2, E3, R1, R2, R3.
    repeat split.
Qed.

Lemma keys_hidden_entries (ls1 : list Linear) : forall (ls2 : list Linear) (i : nat),
  List.length ls1 = List.length ls2 ->
  keys (hidden_entries i ls1) = keys (hidden_entries i ls2).
Proof.
  induction ls1 as [|l1 ls1 IH]; intros [|l2 ls2] i Hlen; try discriminate.
  - reflexivity.
  - cbn [hidden_entries linear_entries app keys map fst].
    f_equal. f_equal. apply IH. now injection Hlen.
Qed.

Lemma keys_state_dict (i o : Z) (hs : list Z) (m1 m2 : Network) :
  has_arch i o hs m1 = true -> has_arch i o hs m2 = true ->
  keys (state_dict m1) = keys (state_dict m2).
Proof.
  intros H1 H2.
  apply has_arch_widths in H1, H2.
  destruct H1 as (_ & W1 & _), H2 as (_ & W2 & _).
  unfold state_dict, keys. rewrite !map_app. f_equal.
  apply keys_hidden_entries.
  rewrite <- (length_map out_features (hidden_layers m1)).
  rewrite <- (length_map out_features (hidden_layers m2)). congruence.
Qed.

Lemma unexpected_keys_same (sd : list (string * value)) (m : Network) :
  keys sd = keys (state_dict m) -> unexpected_keys sd m = [].
Proof.
  intros E. unfold unexpected_keys. rewrite E.
  apply filter_nil_intro. intros k Hk.
  apply negb_false_iff. now apply mem_In.
Qed.

(** Loading the state dict of [model] into a network of the same layout
    succeeds and yields [model]. *)
Lemma load_own_layout (i o : Z) (hs : list Z) (fresh model : Network) :
  has_arch i o hs fresh = true -> has_arch i o hs model = true ->
  load_state_dict fresh (state_dict_value model) = (model, Ok tt).
Proof.
  intros Hf Hm. unfold state_dict_value.
  set (sd := map (fun kv => (fst kv, VTensor (snd kv))) (state_dict model)).
  assert (forall k, dict_get sd k = option_map VTensor (dict_get (state_dict model) k))
    as Hget by (intros k; apply (dict_get_map (fun _ => VTensor))).
  assert (keys sd = keys (state_dict model)) as Hkeys
    by apply (keys_map (fun _ => VTensor)).
  assert (all_tensors sd = true) as Hall.
  { unfold all_tensors. rewrite forallb_forall. intros x Hx.
    apply in_map_iff in Hx. destruct Hx as [e [<- _]]. reflexivity. }
  rewrite load_state_dict_spec by now apply all_tensors_not_bad.
  pose proof Hf as Hf'. pose proof Hm as Hm'.
  unfold has_arch in Hf', Hm'. rewrite !andb_true_iff in Hf', Hm'.
  destruct Hf' as [[_ Hfc] Hfo], Hm' as [[_ Hmc] Hmo].
  destruct (map_hidden_load sd hs i (hidden_layers fresh) (hidden_layers model) 0
              Hfc Hmc) as (E1 & E2 & E3).
  { intros k l Hk. cbn [Nat.add]. rewrite !Hget.
    rewrite (state_dict_hidden_weight model k l Hk).
    rewrite (state_dict_hidden_bias model k l Hk). split; reflexivity. }
  destruct (map_linear_load sd "output." (last hs i) o (output fresh) (output model)
              Hfo Hmo) as (O1 & O2 & O3).
  { cbn [append]. now rewrite Hget, state_dict_output_weight. }
  { cbn [append]. now rewrite Hget, state_dict_output_bias. }
  f_equal.
  - unfold map_params. rewrite E1, O1. now destruct model.
  - assert (is_ok (verdict sd fresh) = true) as Hok.
    { apply verdict_ok. split; [|split].
      - unfold state_dict. now rewrite missing_in_app, E2, O2.
      - apply unexpected_keys_same.
        rewrite Hkeys. symmetry. eapply keys_state_dict; eassumption.
      - unfold state_dict. now rewrite mismatch_in_app, E3, O3. }
    destruct (verdict sd fresh) as [[]|e]; [reflexivity | discriminate].
Qed.

(** Loading a mapping that holds, under the parameter names of a layout and
    no other name, arrays of the parameter shapes: whatever the network held
    before, every one of its parameters is replaced by the recorded array of
    its name, in whatever order the mapping lists them. *)
Lemma load_matching (i o : Z) (hs : list Z) (fresh recorded : Network)
  (sd : list (string * value)) :
  has_arch i o hs fresh = true -> has_arch i o hs recorded = true ->
  (forall name,
     dict_get sd name = option_map VTensor (dict_get (state_dict recorded) name)) ->
  load_state_dict fresh (VDict sd) = (recorded, Ok tt).
Proof.
  intros Hf Hm Hget.
  assert (existsb (is_bad sd) (state_dict fresh) = false) as Hbad.
  { apply not_true_is_false. intros H. apply existsb_exists in H.
    destruct H as [e [_ He]]. unfold is_bad in He. rewrite Hget in He.
    destruct (dict_get (state_dict recorded) (fst e)); discriminate. }
  rewrite load_state_dict_spec by assumption.
  pose proof Hf as Hf'. pose proof Hm as Hm'.
  unfold has_arch in Hf', Hm'. rewrite !andb_true_iff in Hf', Hm'.
  destruct Hf' as [[_ Hfc] Hfo], Hm' as [[_ Hmc] Hmo].
  destruct (map_hidden_load sd hs i (hidden_layers fresh) (hidden_layers recorded) 0
              Hfc Hmc) as (E1 & E2 & E3).
  { intros k l Hk. cbn [Nat.add]. rewrite !Hget.
    rewrite (state_dict_hidden_weight recorded k l Hk).
    rewrite (state_dict_hidden_bias recorded k l Hk). split; reflexivity. }
  destruct (map_linear_load sd "output." (last hs i) o (output fresh)
              (output recorded) Hfo Hmo) as (O1 & O2 & O3).
  { cbn [append]. now rewrite Hget, state_dict_output_weight. }
  { cbn [append]. now rewrite Hget, state_dict_output_bias. }
  f_equal.
  - unfold map_params. rewrite E1, O1. now destruct recorded.
  - assert (is_ok (verdict sd fresh) = true) as Hok.
    { apply verdict_ok. split; [|split].
      - unfold state_dict. now rewrite missing_in_app, E2, O2.
      - unfold unexpected_keys. apply filter_nil_intro. intros k Hk.
        apply negb_false_iff, mem_In.
        rewrite (keys_state_dict i o hs fresh recorded Hf Hm).
        destruct (dict_get (state_dict recorded) k) as [t|] eqn:Ek.
        + now apply dict_get_in_keys in Ek.
        + exfalso. specialize (Hget k). rewrite Ek in Hget.
          apply dict_get_none in Hget. contradiction.
      - unfold state_dict. now rewrite mismatch_in_app, E3, O3. }
    destruct (verdict sd fresh) as [[]|e]; [reflexivity | discriminate].
Qed.

Section Facts.
Context {T : Torch}.

Lemma torch_load_after_save (obj : value) (path : string) (w : world) :
  torch_load path (snd (torch_save obj path w))
  = (Ok obj, snd (torch_save obj path w)).
Proof.
  unfold torch_load, torch_save. cbn [snd files].
  now rewrite dict_get_set_same.
Qed.

Lemma all_tensors_state_dict_value (m : Network) (sd : list (string * value)) :
  state_dict_value m = VDict sd ->
  all_tensors sd = true
  /\ keys sd = keys (state_dict m)
  /\ forall k, dict_get sd k = option_map VTensor (dict_get (state_dict m) k).
Proof.
  unfold state_dict_value. intros [= <-]. split; [|split].
  - unfold all_tensors. rewrite forallb_forall. intros x Hx.
    apply in_map_iff in Hx. destruct Hx as [e [<- _]]. reflexivity.
  - apply (keys_map (fun _ => VTensor)).
  - intros k. apply (dict_get_map (fun _ => VTensor)).
Qed.

(** *** The constructors *)


Lemma fresh_tensor_ok (sh : list Z) (w : world) :
  exists xs g, fresh_tensor sh w = (Ok {| shape := sh; data := xs |}, set_rng w g).
Proof.
  unfold fresh_tensor. destruct (draws (Z.to_nat (numel sh)) (rng w)) as [xs g].
  now exists xs, g.
Qed.

Lemma nn_Linear_ok (i o : Z) (w : world) :
  (0 <= i)%Z -> (0 <= o)%Z ->
  exists l g,
    nn_Linear (VInt i) (VInt o) w = (Ok l, set_rng w g)
    /\ linear_fits i o l = true.
Proof.
  intros Hi Ho. unfold nn_Linear.
  destruct (Z.ltb_spec i 0); [lia|]. destruct (Z.ltb_spec o 0); [lia|].
  unfold bind, ret.
  destruct (fresh_tensor_ok [o; i] w) as (xs & g & ->).
  destruct (fresh_tensor_ok [o] (set_rng w g)) as (ys & g1 & ->).
  eexists; exists g1. split; [reflexivity|].
  now apply linear_fits_intro.
Qed.

Lemma nn_Linear_inv (vi vo : value) (w w1 : world) (l : Linear) :
  nn_Linear vi vo w = (Ok l, w1) ->
  exists i o, vi = VInt i /\ vo = VInt o /\ linear_fits i o l = true.
Proof.
  unfold nn_Linear.
  destruct vi as [i| | |]; try discriminate.
  destruct vo as [o| | |]; try discriminate.
  destruct (Z.ltb_spec i 0) as [Hi|Hi]; [discriminate|].
  destruct (Z.ltb_spec o 0) as [Ho|Ho]; [discriminate|].
  intros Hret. exists i, o. split; [reflexivity|]. split; [reflexivity|].
  destruct (nn_Linear_ok i o w) as (l' & g & E & Hfit); try assumption.
  unfold nn_Linear in E.
  destruct (Z.ltb_spec i 0); [lia|]. destruct (Z.ltb_spec o 0); [lia|].
  rewrite E in Hret. now injection Hret as <- _.
Qed.

Lemma linear_chain_ok (hs : list Z) : forall (prev : Z) (w : world),
  (0 <= prev)%Z -> Forall (fun h => 0 <= h)%Z hs ->
  exists ls g,
    linear_chain (VInt prev) (map VInt hs) w = (Ok ls, set_rng w g)
    /\ chain_fits prev hs ls = true.
Proof.
  induction hs as [|h hs IH]; intros prev w Hp Hpos.
  - exists [], (rng w). split; [now destruct w | reflexivity].
  - inversion Hpos as [|? ? Hh Hrest]; subst.
    cbn [map linear_chain]. unfold bind.
    destruct (nn_Linear_ok prev h w Hp Hh) as (l & g & -> & Hl).
    destruct (IH h (set_rng w g) Hh Hrest) as (ls & g1 & -> & Hls).
    exists (l :: ls), g1. split; [reflexivity|].
    cbn [chain_fits]. now rewrite Hl, Hls.
Qed.

Lemma linear_chain_inv (vhs : list value) :
  forall (vprev : value) (w w1 : world) (ls : list Linear),
  vhs <> [] ->
  linear_chain vprev vhs w = (Ok ls, w1) ->
  exists prev hs,
    vprev = VInt prev /\ vhs = map VInt hs /\ chain_fits prev hs ls = true.
Proof.
  induction vhs as [|vh vhs IH]; intros vprev w w1 ls Hne H; [congruence|].
  cbn [linear_chain] in H. unfold bind in H.
  destruct (nn_Linear vprev vh w) as [[l|e] w2] eqn:El; [|discriminate].
  apply nn_Linear_inv in El. destruct El as (prev & h & -> & -> & Hl).
  destruct (linear_chain (VInt h) vhs w2) as [[ls1|e] w3] eqn:Ec; [|discriminate].
  cbn in H. injection H as <- _.
  destruct vhs as [|vh1 vhs1].
  - cbn in Ec. injection Ec as <- _.
    exists prev, [h]. repeat split. cbn. now rewrite Hl.
  - apply IH in Ec; [|discriminate].
    destruct Ec as (prev1 & hs1 & [= <-] & Ehs & Hc).
    exists prev, (h :: hs1). split; [reflexivity|]. split.
    + cbn [map]. now rewrite Ehs.
    + cbn [chain_fits]. now rewrite Hl, Hc.
Qed.

Lemma last_cons {A : Type} (l : list A) (a d : A) : last (a :: l) d = last l a.
Proof.
  revert a d. induction l as [|b l IH]; intros a d; [reflexivity|].
  change (last (a :: b :: l) d) with (last (b :: l) d).
  rewrite !IH. reflexivity.
Qed.

Lemma last_map_VInt (l : list Z) (d : Z) :
  last (map VInt l) (VInt d) = VInt (last l d).
Proof.
  induction l as [|a l IH]; [reflexivity|].
  destruct l as [|b l]; [reflexivity|]. exact IH.
Qed.

Lemma chain_fits_last (hs : list Z) : forall (prev : Z) (ls : list Linear),
  chain_fits prev hs ls = true -> (0 <= prev)%Z -> (0 <= last hs prev)%Z.
Proof.
  induction hs as [|h hs IH]; intros prev [|l ls] H Hp; try discriminate.
  - assumption.
  - cbn [chain_fits] in H. apply andb_true_iff in H. destruct H as [Hl Hc].
    rewrite last_cons. apply (IH _ _ Hc).
    apply linear_fits_inv in Hl. tauto.
Qed.

(** The constructor accepts non-negative integer sizes with at least one
    hidden width, and builds the layout they describe. *)
Lemma fc_model_Network_ok (i o : Z) (hs : list Z) (w : world) :
  (0 <= i)%Z -> (0 <= o)%Z -> hs <> [] -> Forall (fun h => 0 <= h)%Z hs ->
  exists m g,
    fc_model_Network (VInt i) (VInt o) (ints hs) w = (Ok m, set_rng w g)
    /\ has_arch i o hs m = true.
Proof.
  intros Hi Ho Hne Hpos. destruct hs as [|h0 rest]; [congruence|].
  unfold fc_model_Network, ints. cbn [map]. unfold bind.
  destruct (linear_chain_ok (h0 :: rest) i w Hi Hpos) as (ls & g & E & Hc).
  cbn [map] in E. rewrite E.
  rewrite last_map_VInt.
  assert (0 <= last rest h0)%Z as Hlast.
  { rewrite <- (last_cons rest h0 i). now apply (chain_fits_last _ _ _ Hc). }
  destruct (nn_Linear_ok (last rest h0) o (set_rng w g) Hlast Ho)
    as (out & g1 & -> & Hout).
  eexists; exists g1. split; [reflexivity|].
  unfold has_arch. cbn [is_nil negb hidden_layers output andb].
  now rewrite Hc, last_cons, Hout.
Qed.

(** Whenever the constructor returns, its arguments were integers and a list
    of integers, and the network has the layout they describe. *)
Lemma fc_model_Network_inv (vi vo vh : value) (w w1 : world) (m : Network) :
  fc_model_Network vi vo vh w = (Ok m, w1) ->
  exists i o hs,
    vi = VInt i /\ vo = VInt o /\ vh = ints hs /\ has_arch i o hs m = true.
Proof.
  unfold fc_model_Network.
  destruct vh as [|vhs| |]; try discriminate.
  destruct vhs as [|vh0 vrest]; [discriminate|].
  unfold bind.
  destruct (linear_chain vi (vh0 :: vrest) w) as [[ls|e] w2] eqn:Ec; [|discriminate].
  apply linear_chain_inv in Ec; [|discriminate].
  destruct Ec as (i & hs & -> & Ehs & Hc).
  destruct hs as [|h0 rest]; [discriminate|].
  cbn [map] in Ehs. injection Ehs as -> ->.
  rewrite last_map_VInt.
  destruct (nn_Linear (VInt (last rest h0)) vo w2) as [[out|e] w3] eqn:Eo;
    [|discriminate].
  apply nn_Linear_inv in Eo. destruct Eo as (i1 & o & [= <-] & -> & Hout).
  cbn. intros [= <- _].
  exists i, o, (h0 :: rest). repeat split.
  unfold has_arch. cbn [is_nil negb hidden_layers output andb].
  now rewrite Hc, last_cons, Hout.
Qed.

(** C2: on a record with the four keys, [load_checkpoint] is the
    constructor applied to the recorded input size, output size and hidden
    widths, followed by [load_state_dict] of the recorded state_dict into the
    network just constructed, whose result it returns.

    It does return, and returns the recorded arrays: when the record holds
    the sizes and the hidden widths of a layout and, under the parameter
    names of that layout and no other, arrays of the parameter shapes listed
    in any order, [load_checkpoint] returns the network of that layout whose
    parameter of each name is the recorded array of that name, whatever
    values the constructor had drawn.

    Conversely, when it returns a model, the record held two integers and a
    list of integers, the model has that input dimension, those hidden
    widths in order and that output dimension, and the recorded state_dict
    and the parameters of the model are the same arrays under the same
    names. *)
Theorem load_checkpoint_steps (w : world) (filepath : string)
  (ck vi vo vh vsd : value) :
  dict_get (files w) filepath = Some ck ->
  getitem ck "input_size" = Ok vi ->
  getitem ck "output_size" = Ok vo ->
  getitem ck "hidden_layers" = Ok vh ->
  getitem ck "state_dict" = Ok vsd ->
  load_checkpoint filepath w
  = match fc_model_Network vi vo vh w with
    | (Ok fresh, w1) =>
        match load_state_dict fresh vsd with
        | (loaded, Ok _) => (Ok loaded, w1)
        | (_, Raise e) => (Raise e, w1)
        end
    | (Raise e, w1) => (Raise e, w1)
    end
  /\ (forall (i o : Z) (hs : list Z) (sd : list (string * value))
        (recorded : Network),
        vi = VInt i -> vo = VInt o -> vh = ints hs -> vsd = VDict sd ->
        has_arch i o hs recorded = true ->
        (forall name,
           dict_get sd name
           = option_map VTensor (dict_get (state_dict recorded) name)) ->
        fst (load_checkpoint filepath w) = Ok recorded)
  /\ forall (m : Network) (w1 : world),
       load_checkpoint filepath w = (Ok m, w1) ->
       exists (i o : Z) (hs : list Z) (sd : list (string * value)),
         vi = VInt i /\ vo = VInt o /\ vh = ints hs /\ vsd = VDict sd
         /\ has_arch i o hs m = true
         /\ option_map in_features (hd_error (hidden_layers m)) = Some i
         /\ map out_features (hidden_layers m) = hs
         /\ out_features (output m) = o
         /\ forall name,
              dict_get sd name = option_map VTensor (dict_get (state_dict m) name).
Proof.
  intros Hfile Hi Ho Hh Hsd.
  assert (load_checkpoint filepath w
          = match fc_model_Network vi vo vh w with
            | (Ok fresh, w1) =>
                match load_state_dict fresh vsd with
                | (loaded, Ok _) => (Ok loaded, w1)
                | (_, Raise e) => (Raise e, w1)
                end
            | (Raise e, w1) => (Raise e, w1)
            end) as Hsteps.
  { unfold load_checkpoint, bind, lift, torch_load. rewrite Hfile, Hi, Ho, Hh.
    destruct (fc_model_Network vi vo vh w) as [[fresh|e] w1]; [|reflexivity].
    rewrite Hsd.
    destruct (load_state_dict fresh vsd) as [loaded [u|e]]; reflexivity. }
  split; [exact Hsteps|]. split.
  - intros i o hs sd recorded -> -> -> -> Harch Hget.
    destruct (has_arch_widths _ _ _ _ Harch)
      as (Hne & _ & _ & _ & _ & Hi0 & Ho0 & Hpos & _).
    rewrite Hsteps.
    destruct (fc_model_Network_ok i o hs w Hi0 Ho0 Hne Hpos)
      as (fresh & g & -> & Hfresh).
    now rewrite (load_matching i o hs fresh recorded sd Hfresh Harch Hget).
  - intros m w1 Hret. rewrite Hsteps in Hret.
    destruct (fc_model_Network vi vo vh w) as [[fresh|e] w2] eqn:En; [|discriminate].
    apply fc_model_Network_inv in En.
    destruct En as (i & o & hs & -> & -> & -> & Harch).
    destruct (load_state_dict fresh vsd) as [loaded [u|e]] eqn:El; [|discriminate].
    injection Hret as <- <-.
    destruct vsd as [| | |sd]; try discriminate.
    apply load_state_dict_ok_inv in El. destruct El as [-> Hnames].
    assert (has_arch i o hs (map_params (load_entry sd) fresh) = true) as Harch1.
    { rewrite has_arch_map_params; [assumption | apply load_entry_shape]. }
    destruct (has_arch_widths _ _ _ _ Harch1) as (_ & Hw & Hin & Hout & _).
    exists i, o, hs, sd. repeat split; assumption.
Qed.

(** C1, as amended: for every model with the layout of
    [Network(784, 10, hs)], the input and output sizes that the save step
    writes into every record, saving the checkpoint built from the model and
    calling [load_checkpoint] on the saved file returns a model equal to the
    original: same layers, same sizes, same parameter values. *)
Theorem save_load_roundtrip (hs : list Z) (model : Network) (w : world) :
  has_arch 784 10 hs model = true ->
  fst (load_checkpoint "checkpoint.pth" (snd (save_checkpoint model w)))
  = Ok model.
Proof.
  intros Harch.
  destruct (has_arch_widths _ _ _ _ Harch) as (Hne & Hw & _ & _ & _ & _ & _ & Hpos & _).
  unfold load_checkpoint, bind, lift, save_checkpoint.
  rewrite torch_load_after_save.
  change (getitem (checkpoint_of model) "input_size") with (Ok (VInt 784)).
  change (getitem (checkpoint_of model) "output_size") with (Ok (VInt 10)).
  change (getitem (checkpoint_of model) "hidden_layers")
    with (Ok (VList (map (fun each => VInt (out_features each))
                         (hidden_layers model)))).
  change (getitem (checkpoint_of model) "state_dict")
    with (Ok (state_dict_value model)).
  cbv iota beta.
  replace (VList (map (fun each => VInt (out_features each)) (hidden_layers model)))
    with (ints hs) by (unfold ints; now rewrite <- Hw, map_map).
  destruct (fc_model_Network_ok 784 10 hs
              (snd (torch_save (checkpoint_of model) "checkpoint.pth" w)))
    as (fresh & g & -> & Hfresh); try assumption; try lia.
  now rewrite (load_own_layout 784 10 hs fresh model Hfresh Harch).
Qed.


(** *** The notebook run *)

Lemma retrain_shape (f : string -> nat -> scalar) (key : string) (t : tensor) :
  shape (retrain f key t) = shape t.
Proof. reflexivity. Qed.

Lemma chain_fits_three (prev a b c : Z) (ls : list Linear) :
  chain_fits prev [a; b; c] ls = true ->
  exists l0 l1 l2,
    ls = [l0; l1; l2]
    /\ linear_fits prev a l0 = true
    /\ linear_fits a b l1 = true
    /\ linear_fits b c l2 = true.
Proof.
  intros H.
  destruct ls as [|l0 ls]; [discriminate|].
  cbn [chain_fits] in H. apply andb_true_iff in H. destruct H as [H0 H].
  destruct ls as [|l1 ls]; [discriminate|].
  cbn [chain_fits] in H. apply andb_true_iff in H. destruct H as [H1 H].
  destruct ls as [|l2 ls]; [discriminate|].
  cbn [chain_fits] in H. apply andb_true_iff in H. destruct H as [H2 H].
  destruct ls as [|l3 ls]; [|discriminate].
  now exists l0, l1, l2.
Qed.


(** The "Try this" cell, the way the notebook recorded it: loading the
    parameters of a network of widths 512, 256, 128 into a new one of widths
    400, 200, 100 raises on seven size mismatches; the new network keeps the
    values it was constructed with, except for ['output.bias'], whose shape
    agrees and which has already been copied. *)
Lemma try_this_outcome (trained fresh : Network) :
  has_arch 784 10 [512; 256; 128]%Z trained = true ->
  has_arch 784 10 [400; 200; 100]%Z fresh = true ->
  forall sd, state_dict_value trained = VDict sd ->
  hidden_layers (map_params (load_entry sd) fresh) = hidden_layers fresh
  /\ weight (output (map_params (load_entry sd) fresh)) = weight (output fresh)
  /\ bias (output (map_params (load_entry sd) fresh)) = bias (output trained)
  /\ verdict sd fresh
     = Raise (RuntimeError
                (LoadingStateDict [] []
                   ["hidden_layers.0.weight"; "hidden_layers.0.bias";
                    "hidden_layers.1.weight"; "hidden_layers.1.bias";
                    "hidden_layers.2.weight"; "hidden_layers.2.bias";
                    "output.weight"])).
Proof.
  intros Ht Hf sd Hsd. unfold state_dict_value in Hsd. injection Hsd as <-.
  unfold has_arch in Ht, Hf. rewrite !andb_true_iff in Ht, Hf.
  destruct Ht as [[_ Htc] Hto], Hf as [[_ Hfc] Hfo].
  apply chain_fits_three in Htc, Hfc.
  destruct Htc as (t0 & t1 & t2 & Eth & Ht0 & Ht1 & Ht2).
  destruct Hfc as (f0 & f1 & f2 & Efh & Hf0 & Hf1 & Hf2).
  destruct trained as [thl tout], fresh as [fhl fout]. cbn [hidden_layers output] in *.
  subst thl fhl.
  repeat match goal with
         | H : linear_fits _ _ _ = true |- _ =>
             apply linear_fits_inv in H;
             destruct H as (_ & _ & ? & ? & ? & ?)
         end.
  destruct t0 as [? ? [? ?] [? ?]], t1 as [? ? [? ?] [? ?]],
    t2 as [? ? [? ?] [? ?]], tout as [? ? [? ?] [? ?]],
    f0 as [? ? [? ?] [? ?]], f1 as [? ? [? ?] [? ?]],
    f2 as [? ? [? ?] [? ?]], fout as [? ? [? ?] [? ?]].
  cbn [in_features out_features weight bias shape data last] in *. subst.
  repeat split.
Qed.

(** C6: what the notebook does.  Run in the order of the document, the cell
    "Try this" rebinds [model] to a new [Network(784, 10, [400, 200, 100])]
    before its [load_state_dict] raises, and the checkpoint cell saves that
    model.  The record on disk holds the widths 400, 200, 100 and, for every
    hidden layer and for the output weight, the values the constructor drew
    for the new network: they are not the parameters reached by training,
    which belong to a network of widths 512, 256, 128. *)
Theorem notebook_checkpoint_not_trained (w : world) :
  exists (trained fresh saved : Network) (w1 w2 : world),
    trained_model w = Some trained
    /\ map out_features (hidden_layers trained) = [512; 256; 128]%Z
    /\ fc_model_Network (VInt 784) (VInt 10) (ints [400; 200; 100]%Z) w1
       = (Ok fresh, w2)
    /\ snd (run_cells cells_to_checkpoint (start w))
       = [Ok tt; Ok tt; Ok tt; Ok tt; Ok tt;
          Raise (RuntimeError
                   (LoadingStateDict [] []
                      ["hidden_layers.0.weight"; "hidden_layers.0.bias";
                       "hidden_layers.1.weight"; "hidden_layers.1.bias";
                       "hidden_layers.2.weight"; "hidden_layers.2.bias";
                       "output.weight"]));
          Ok tt]
    /\ checkpoint (fst (run_cells cells_to_checkpoint (start w)))
       = Some (checkpoint_of saved)
    /\ dict_get (files (disk (fst (run_cells cells_to_checkpoint (start w)))))
         "checkpoint.pth"
       = Some (checkpoint_of saved)
    /\ getitem (checkpoint_of saved) "hidden_layers"
       = Ok (ints [400; 200; 100]%Z)
    /\ hidden_layers saved = hidden_layers fresh
    /\ weight (output saved) = weight (output fresh)
    /\ bias (output saved) = bias (output trained).
Proof.
  destruct (fc_model_Network_ok 784 10 [512; 256; 128]%Z w)
    as (m0 & g0 & E0 & H0); try lia; try discriminate.
  { repeat constructor; lia. }
  destruct (fit (rng (set_rng w g0)) (state_dict m0)) as [f g1] eqn:Efit.
  set (trained := map_params (retrain f) m0).
  assert (has_arch 784 10 [512; 256; 128]%Z trained = true) as Htr.
  { unfold trained. rewrite has_arch_map_params; [assumption | apply retrain_shape]. }
  set (d1 := Build_world
               (dict_set (files w) "checkpoint.pth" (state_dict_value trained)) g1).
  destruct (fc_model_Network_ok 784 10 [400; 200; 100]%Z d1)
    as (fresh & g2 & E2 & H2); try lia; try discriminate.
  { repeat constructor; lia. }
  set (sd := map (fun kv => (fst kv, VTensor (snd kv))) (state_dict trained)).
  set (saved := map_params (load_entry sd) fresh).
  exists trained, fresh, saved, d1, (set_rng d1 g2).
  assert (run_cells [cell_create; cell_train] (start w)
          = ({| disk := set_rng w g1; model := Some trained;
                state_dict_var := None; checkpoint := None |},
             [Ok tt; Ok tt])) as Erun2.
  { cbn [run_cells]. unfold cell_create, bind_model.
    cbn [start disk]. rewrite E0.
    unfold cell_train, fc_model_train.
    cbn [set_model set_disk model disk state_dict_var checkpoint].
    rewrite Efit. reflexivity. }
  assert (load_state_dict fresh (VDict sd) = (saved, verdict sd fresh)) as Eload.
  { apply load_state_dict_spec. apply all_tensors_not_bad.
    unfold all_tensors, sd. rewrite forallb_forall. intros x Hx.
    apply in_map_iff in Hx. destruct Hx as [e [<- _]]. reflexivity. }
  assert (run_cells cells_to_checkpoint (start w)
          = ({| disk := Build_world
                          (dict_set (files d1) "checkpoint.pth" (checkpoint_of saved))
                          g2;
                model := Some saved;
                state_dict_var := Some (state_dict_value trained);
                checkpoint := Some (checkpoint_of saved) |},
             [Ok tt; Ok tt; Ok tt; Ok tt; Ok tt; verdict sd fresh; Ok tt])) as Erun.
  { unfold cells_to_checkpoint. cbn [run_cells]. unfold cell_create, bind_model.
    cbn [start disk]. rewrite E0.
    unfold cell_train, fc_model_train.
    cbn [set_model set_disk model disk state_dict_var checkpoint].
    rewrite Efit. fold trained.
    unfold cell_save_state_dict, torch_save.
    cbn [set_model set_disk model disk state_dict_var checkpoint set_rng files rng].
    fold d1.
    unfold cell_load_state_dict, torch_load.
    cbn [set_model set_disk model disk state_dict_var checkpoint set_rng files rng].
    unfold d1 at 1. cbn [files]. rewrite dict_get_set_same. fold d1.
    unfold cell_load_into_model, call_load_state_dict.
    cbn [set_model set_disk set_state_dict model disk state_dict_var checkpoint].
    rewrite (load_own_layout _ _ _ trained trained Htr Htr).
    unfold cell_try_this, bind_model, call_load_state_dict.
    cbn [set_model set_disk set_state_dict model disk state_dict_var checkpoint].
    rewrite E2.
    cbn [set_model set_disk set_state_dict model disk state_dict_var checkpoint].
    unfold state_dict_value at 1. fold sd. rewrite Eload.
    unfold cell_checkpoint, torch_save.
    cbn [set_model set_disk set_state_dict set_checkpoint model disk
         state_dict_var checkpoint set_rng files rng].
    reflexivity. }
  destruct (try_this_outcome trained fresh Htr H2 sd eq_refl)
    as (Ehid & Ewt & Ebias & Everdict).
  fold saved in Ehid, Ewt, Ebias.
  assert (has_arch 784 10 [400; 200; 100]%Z saved = true) as Hsaved.
  { unfold saved. rewrite has_arch_map_params; [assumption | apply load_entry_shape]. }
  rewrite Erun, Everdict. cbn [fst snd checkpoint disk files].
  split.
  { unfold trained_model. now rewrite Erun2. }
  split; [apply (has_arch_widths _ _ _ _ Htr)|].
  split; [exact E2|].
  split; [reflexivity|].
  split; [reflexivity|].
  split; [apply dict_get_set_same|].
  split.
  { destruct (has_arch_widths _ _ _ _ Hsaved) as (_ & Hw & _).
    change (getitem (checkpoint_of saved) "hidden_layers")
      with (Ok (VList (map (fun each => VInt (out_features each))
                           (hidden_layers saved)))).
    unfold ints. now rewrite <- Hw, map_map. }
  repeat split; assumption.
Qed.

(** C4: the record that the save step writes to ['checkpoint.pth'] is a
    mapping with exactly the four keys input_size, output_size,
    hidden_layers and state_dict, in that order: two integers, the list of
    the [out_features] of the hidden layers in layer order, and a mapping
    from the parameter names of the model to arrays (its parameters);
    nothing else is in the record. *)
Theorem checkpoint_record_keys (model : Network) (w : world) :
  exists (entries sd : list (string * value)),
    fst (torch_load "checkpoint.pth" (snd (save_checkpoint model w)))
    = Ok (VDict entries)
    /\ keys entries = ["input_size"; "output_size"; "hidden_layers"; "state_dict"]
    /\ dict_get entries "input_size" = Some (VInt 784)
    /\ dict_get entries "output_size" = Some (VInt 10)
    /\ dict_get entries "hidden_layers"
       = Some (VList (map VInt (map out_features (hidden_layers model))))
    /\ dict_get entries "state_dict" = Some (VDict sd)
    /\ all_tensors sd = true
    /\ keys sd = keys (state_dict model)
    /\ forall k, dict_get sd k = option_map VTensor (dict_get (state_dict model) k).
Proof.
  unfold save_checkpoint. rewrite torch_load_after_save. cbn [fst].
  destruct (state_dict_value model) as [| | |sd] eqn:E; try discriminate.
  exists [("input_size", VInt 784); ("output_size", VInt 10);
          ("hidden_layers",
           VList (map (fun each => VInt (out_features each)) (hidden_layers model)));
          ("state_dict", VDict sd)], sd.
  split; [unfold checkpoint_of; now rewrite E|].
  repeat (split; [reflexivity|]).
  split; [cbn; now rewrite map_map|].
  split; [reflexivity|].
  now apply all_tensors_state_dict_value.
Qed.

(** C5: the record written by the save step is shape-consistent.  For a
    model whose layers have the shapes that [nn.Linear] gives them and for
    every hidden layer index [i], the [i]-th entry [h] of the recorded
    hidden_layers is the first (output) dimension of the array recorded as
    [hidden_layers.i.weight] and the dimension of the one recorded as
    [hidden_layers.i.bias]; those arrays are the parameters of the [i]-th
    hidden layer of the very model the widths were read from. *)
Theorem checkpoint_shape_consistent (model : Network) (w : world) :
  layers_ok model = true ->
  forall (i : nat) (l : Linear),
    nth_error (hidden_layers model) i = Some l ->
    exists (ck sd : value) (hs : list value) (h : Z) (wt b : tensor),
      fst (torch_load "checkpoint.pth" (snd (save_checkpoint model w))) = Ok ck
      /\ getitem ck "hidden_layers" = Ok (VList hs)
      /\ nth_error hs i = Some (VInt h)
      /\ getitem ck "state_dict" = Ok sd
      /\ getitem sd (layer_prefix i ++ "weight")%string = Ok (VTensor wt)
      /\ getitem sd (layer_prefix i ++ "bias")%string = Ok (VTensor b)
      /\ shape wt = [h; in_features l]
      /\ shape b = [h]
      /\ wt = weight l /\ b = bias l.
Proof.
  intros Hok i l Hl.
  unfold save_checkpoint. rewrite torch_load_after_save. cbn [fst].
  exists (checkpoint_of model), (state_dict_value model),
    (map (fun each => VInt (out_features each)) (hidden_layers model)),
    (out_features l), (weight l), (bias l).
  assert (linear_ok l = true) as Hlin.
  { unfold layers_ok in Hok. apply andb_true_iff in Hok. destruct Hok as [Hh _].
    rewrite forallb_forall in Hh. apply Hh. eapply nth_error_In; eassumption. }
  unfold linear_ok in Hlin. apply andb_true_iff in Hlin.
  destruct Hlin as [Hw Hb]. apply shape_eqb_eq in Hw, Hb.
  repeat split; try reflexivity; try assumption.
  - rewrite nth_error_map, Hl. reflexivity.
  - unfold state_dict_value, getitem.
    rewrite (dict_get_map (fun _ => VTensor)).
    now rewrite (state_dict_hidden_weight model i l Hl).
  - unfold state_dict_value, getitem.
    rewrite (dict_get_map (fun _ => VTensor)).
    now rewrite (state_dict_hidden_bias model i l Hl).
Qed.

(** C9, as amended: on a file holding a mapping that lacks one of the four
    keys, [load_checkpoint] raises and returns no model.  The error is the
    [KeyError] of the first missing key among input_size, output_size and
    hidden_layers, looked up in that order; when only state_dict is missing
    the network is constructed before the lookup, so the error is the
    constructor's when it rejects the configuration, and
    [KeyError 'state_dict'] when it accepts it. *)
Theorem load_checkpoint_missing_key (w : world) (filepath : string)
  (d : list (string * value)) :
  dict_get (files w) filepath = Some (VDict d) ->
  dict_get d "input_size" = None \/ dict_get d "output_size" = None
  \/ dict_get d "hidden_layers" = None \/ dict_get d "state_dict" = None ->
  is_ok (fst (load_checkpoint filepath w)) = false
  /\ fst (load_checkpoint filepath w)
     = match dict_get d "input_size", dict_get d "output_size",
             dict_get d "hidden_layers" with
       | None, _, _ => Raise (KeyError "input_size")
       | Some _, None, _ => Raise (KeyError "output_size")
       | Some _, Some _, None => Raise (KeyError "hidden_layers")
       | Some vi, Some vo, Some vh =>
           match fst (fc_model_Network vi vo vh w) with
           | Raise e => Raise e
           | Ok _ => Raise (KeyError "state_dict")
           end
       end.
Proof.
  intros Hfile Hmiss.
  unfold load_checkpoint, bind, lift, torch_load, getitem. rewrite Hfile.
  destruct (dict_get d "input_size") as [vi|]; [|split; reflexivity].
  destruct (dict_get d "output_size") as [vo|]; [|split; reflexivity].
  destruct (dict_get d "hidden_layers") as [vh|]; [|split; reflexivity].
  destruct (fc_model_Network vi vo vh w) as [[m0|e] w1]; [|split; reflexivity].
  destruct Hmiss as [H|[H|[H|H]]]; try discriminate.
  rewrite H. split; reflexivity.
Qed.

End Facts.

(** C9, counterexample: a mapping without ['state_dict'] whose input size is
    [-1].  The lookup of ['state_dict'] is never reached: the constructor
    raises a [RuntimeError], which is not a key-lookup error. *)
Lemma load_checkpoint_missing_key_other_error :
  getitem record_negative_input "state_dict" = Raise (KeyError "state_dict")
  /\ fst (load_checkpoint "checkpoint.pth" (disk_with record_negative_input))
     = Raise (RuntimeError (NegativeDimension (-1))).
Proof. split; reflexivity. Qed.

(** C1, counterexample: [small_model] has the layout of
    [Network(3, 2, [4])].  Its record says 784 and 10, so [load_checkpoint]
    builds [Network(784, 10, [4])] and [load_state_dict] raises on three size
    mismatches. *)
Lemma save_load_roundtrip_other_sizes :
  has_arch 3 2 [4%Z] small_model = true
  /\ fst (load_checkpoint "checkpoint.pth" (snd (save_checkpoint small_model empty_disk)))
     = Raise (RuntimeError
                (LoadingStateDict [] []
                   ["hidden_layers.0.weight"; "output.weight"; "output.bias"])).
Proof. split; vm_compute; reflexivity. Qed.

Lemma save_load_roundtrip_witness :
  has_arch 784 10 [2%Z] mnist_model = true
  /\ fst (load_checkpoint "checkpoint.pth" (snd (save_checkpoint mnist_model empty_disk)))
     = Ok mnist_model.
Proof.
  split; [reflexivity|].
  apply (save_load_roundtrip (T := counting) [2%Z]). reflexivity.
Defined.



(** The record of [sevens_model], with its keys and names out of order, on
    a disk where the constructor draws the parameters of [small_model]:
    every one of the twenty-six values is overwritten by the recorded one. *)
Lemma load_checkpoint_steps_witness :
  dict_get (files (disk_with record_sevens)) "checkpoint.pth" = Some record_sevens
  /\ has_arch 3 2 [4%Z] sevens_model = true
  /\ fst (fc_model_Network (VInt 3) (VInt 2) (VList [VInt 4])
            (disk_with record_sevens))
     = Ok small_model
  /\ map snd (state_dict small_model) <> map snd (state_dict sevens_model)
  /\ fst (load_checkpoint "checkpoint.pth" (disk_with record_sevens))
     = Ok sevens_model.
Proof.
  split; [reflexivity|]. split; [reflexivity|]. split; [reflexivity|].
  split; [discriminate|].
  apply (proj1 (proj2 (load_checkpoint_steps (T := counting)
                         (disk_with record_sevens) "checkpoint.pth" record_sevens
                         (VInt 3) (VInt 2) (VList [VInt 4])
                         (VDict [("output.bias", VTensor (bias (output sevens_model)));
                                 ("hidden_layers.0.weight",
                                  VTensor (weight (hd (output sevens_model)
                                                      (hidden_layers sevens_model))));
                                 ("output.weight",
                                  VTensor (weight (output sevens_model)));
                                 ("hidden_layers.0.bias",
                                  VTensor (bias (hd (output sevens_model)
                                                    (hidden_layers sevens_model))))])
                         eq_refl eq_refl eq_refl eq_refl eq_refl))
           3%Z 2%Z [4%Z] _ sevens_model eq_refl eq_refl eq_refl eq_refl eq_refl).
  intros name. cbn [dict_get state_dict hidden_entries linear_entries app
                    hidden_layers output sevens_model weight bias hd].
  change (layer_prefix 0 ++ "weight")%string with "hidden_layers.0.weight".
  change (layer_prefix 0 ++ "bias")%string with "hidden_layers.0.bias".
  change ("output." ++ "weight")%string with "output.weight".
  change ("output." ++ "bias")%string with "output.bias".
  destruct (String.eqb_spec "output.bias" name) as [<-|N1]; [reflexivity|].
  destruct (String.eqb_spec "hidden_layers.0.weight" name) as [<-|N2];
    [reflexivity|].
  destruct (String.eqb_spec "output.weight" name) as [<-|N3]; [reflexivity|].
  destruct (String.eqb_spec "hidden_layers.0.bias" name) as [<-|N4];
    reflexivity.
Defined.

(** The session as the notebook recorded it, on the counting generator: both
    [load_state_dict] cells raise the size mismatches shown in the stored
    outputs, the checkpoint cell runs, and [load_checkpoint] then gives the
    network of widths 400, 200, 100 that the last stored output prints. *)
Example recorded_session :
  let run := run_cells (cells_as_recorded ++ [cell_use_checkpoint]) (start empty_disk) in
  map is_ok (snd run) = [true; true; true; true; false; false; true; true]
  /\ option_map (fun m => map out_features (hidden_layers m)) (model (fst run))
     = Some [400; 200; 100]%Z
  /\ option_map (fun c => getitem c "hidden_layers") (checkpoint (fst run))
     = Some (Ok (ints [400; 200; 100]%Z)).
Proof. vm_compute. repeat split. Qed.

Lemma checkpoint_shape_consistent_witness :
  layers_ok small_model = true
  /\ exists (ck sd : value) (hs : list value) (h : Z) (wt b : tensor),
       fst (torch_load "checkpoint.pth" (snd (save_checkpoint small_model empty_disk)))
       = Ok ck
       /\ getitem ck "hidden_layers" = Ok (VList hs)
       /\ nth_error hs 0 = Some (VInt h)
       /\ getitem ck "state_dict" = Ok sd
       /\ getitem sd "hidden_layers.0.weight" = Ok (VTensor wt)
       /\ getitem sd "hidden_layers.0.bias" = Ok (VTensor b)
       /\ shape wt = [h; 3%Z]
       /\ shape b = [h]
       /\ wt = {| shape := [4; 3]%Z;
                  data := [0; 1; 2; 3; 4; 5; 6; 7; 8; 9; 10; 11]%Z |}
       /\ b = {| shape := [4]%Z; data := [12; 13; 14; 15]%Z |}.
Proof.
  split; [reflexivity|].
  exact (checkpoint_shape_consistent (T := counting) small_model empty_disk
           eq_refl 0 _ eq_refl).
Defined.

Lemma load_checkpoint_missing_key_witness :
  dict_get (files (disk_with record_without_output_size)) "checkpoint.pth"
  = Some record_without_output_size
  /\ fst (load_checkpoint "checkpoint.pth" (disk_with record_without_output_size))
     = Raise (KeyError "output_size").
Proof.
  split; [reflexivity|].
  rewrite (proj2 (load_checkpoint_missing_key (T := counting)
                    (disk_with record_without_output_size) "checkpoint.pth" _
                    eq_refl (or_intror (or_introl eq_refl)))).
  reflexivity.
Defined.

End CheckpointFacts.

(** * More about the training notebook *)

Module TrainingExtras.
Import Training TrainingFacts.

Section Facts.
Context {F : Framework}.

Lemma loader_lines_length (trainloader : DataLoader) (es : list nat) :
  forall t : trainer, List.length (loader_lines trainloader es t) = List.length es.
Proof.
  induction es as [|e es IH]; intros t; cbn; [reflexivity | now rewrite IH].
Qed.

Lemma loader_lines_nth (trainloader : DataLoader) (n : nat) :
  forall (start : nat) (t : trainer) (k : nat),
  k < n ->
  nth_error (loader_lines trainloader (seq start n) t) k
  = Some (loss_line (pass_losses (dl_iter trainloader (start + k))
                       (after_epochs trainloader (seq start k) t))).
Proof.
  induction n as [|n IH]; intros start t k Hk; [lia|].
  destruct k as [|k]; cbn [seq loader_lines nth_error].
  - now rewrite Nat.add_0_r.
  - rewrite IH by lia. now rewrite Nat.add_succ_r.
Qed.

(** X1: a loader whose passes differ, as with [shuffle=True].  As long as
    every pass yields [len(trainloader)] batches, and at least one, the loop
    ends without an exception and has printed one line per epoch, the [k]-th
    being the sum of the losses of the [k]-th pass, taken on the weights
    reached after the passes before it, divided by [len(trainloader)]. *)
Theorem train_loop_shuffled (epochs : nat) (trainloader : DataLoader) (s : session) :
  dl_len trainloader <> 0 ->
  (forall e, e < epochs ->
     List.length (dl_iter trainloader e) = dl_len trainloader) ->
  train_loop epochs trainloader s
  = ({| net := after_epochs trainloader (seq 0 epochs) (net s);
        stdout := stdout s ++ loader_lines trainloader (seq 0 epochs) (net s) |},
     Ok tt)
  /\ List.length (loader_lines trainloader (seq 0 epochs) (net s)) = epochs
  /\ forall k, k < epochs ->
       nth_error (loader_lines trainloader (seq 0 epochs) (net s)) k
       = Some ("Training loss: " ++
               float_str
                 (float_truediv
                    (fold_left float_add
                       (pass_losses (dl_iter trainloader k)
                          (after_epochs trainloader (seq 0 k) (net s)))
                       (float_of_int 0))
                    (float_of_int (Z.of_nat (dl_len trainloader)))))%string.
Proof.
  intros Hlen Hpass. split; [|split].
  - unfold train_loop. apply for_range_shuffled; [assumption|].
    intros e He. apply in_seq in He. apply Hpass. lia.
  - now rewrite loader_lines_length, length_seq.
  - intros k Hk.
    rewrite loader_lines_nth by assumption. cbn [Nat.add].
    unfold loss_line, mean_loss. rewrite pass_losses_length.
    now rewrite Hpass.
Qed.

(** X2: on a loader without batches the loop, asked for at least one epoch,
    stops in its first epoch with [ZeroDivisionError]; it has trained and
    printed nothing and the later epochs are not run. *)
Theorem train_loop_empty_loader (epochs : nat) (s : session) :
  epochs <> 0 ->
  train_loop epochs (loader_of []) s = (s, Raise ZeroDivisionError).
Proof.
  intros Hne. destruct epochs as [|n]; [congruence|].
  unfold train_loop. cbn [seq for_range]. unfold epoch_body. cbn.
  now destruct s.
Qed.

Lemma for_range_prints (trainloader : DataLoader) (es : list nat) :
  forall s : session,
  exists out : list string,
    stdout (fst (for_range trainloader es s)) = stdout s ++ out
    /\ List.length out <= List.length es
    /\ (snd (for_range trainloader es s) = Ok tt
        -> List.length out = List.length es).
Proof.
  induction es as [|e es IH]; intros s.
  - exists []. cbn. rewrite app_nil_r. auto.
  - cbn [for_range]. unfold epoch_body.
    destruct (inner_loop (dl_iter trainloader e) (net s)) as [t1 rl].
    destruct (truediv rl (Z.of_nat (dl_len trainloader))) as [avg|x].
    + match goal with
      | |- context [for_range trainloader es ?s1] =>
          destruct (IH s1) as (out & E & Hle & Hok)
      end.
      exists (("Training loss: " ++ float_str avg)%string :: out).
      rewrite E. cbn [stdout List.length]. rewrite <- app_assoc.
      split; [reflexivity|]. split; [lia|]. intros H. now rewrite Hok.
    + exists []. cbn. rewrite app_nil_r.
      split; [reflexivity|]. split; [lia | discriminate].
Qed.

(** X3: whatever the loader does, the loop only ever appends to what was
    printed, at most one line per epoch, and exactly one per epoch when it
    ends without an exception. *)
Theorem train_loop_prints (epochs : nat) (trainloader : DataLoader) (s : session) :
  exists out : list string,
    stdout (fst (train_loop epochs trainloader s)) = stdout s ++ out
    /\ List.length out <= epochs
    /\ (snd (train_loop epochs trainloader s) = Ok tt -> List.length out = epochs).
Proof.
  unfold train_loop.
  destruct (for_range_prints trainloader (seq 0 epochs) s) as (out & E & Hle & Hok).
  rewrite length_seq in Hle, Hok. now exists out.
Qed.

Lemma for_range_fixed (bs : list batch) (es : list nat) :
  forall (es' : list nat) (s : session),
  List.length es = List.length es' ->
  for_range (loader_of bs) es s = for_range (loader_of bs) es' s.
Proof.
  induction es as [|e es IH]; intros [|e' es'] s Hlen; try discriminate.
  - reflexivity.
  - cbn [for_range].
    change (epoch_body (loader_of bs) e s) with (epoch_body (loader_of bs) e' s).
    destruct (epoch_body (loader_of bs) e' s) as [s1 [u|x]]; [|reflexivity].
    apply IH. now injection Hlen.
Qed.

Lemma for_range_app (trainloader : DataLoader) (es1 es2 : list nat) :
  forall s : session,
  for_range trainloader (es1 ++ es2) s
  = match for_range trainloader es1 s with
    | (s1, Ok _) => for_range trainloader es2 s1
    | (s1, Raise x) => (s1, Raise x)
    end.
Proof.
  induction es1 as [|e es1 IH]; intros s; [reflexivity|].
  cbn [app for_range].
  destruct (epoch_body trainloader e s) as [s1 [u|x]]; [apply IH | reflexivity].
Qed.

(** X4: on a fixed batch sequence, training for [m + n] epochs is training
    for [m] epochs and then, if that ended without an exception, for [n]
    more from the state reached; the printed lines are those of the two runs
    in a row. *)
Theorem train_loop_add (m n : nat) (bs : list batch) (s : session) :
  train_loop (m + n) (loader_of bs) s
  = match train_loop m (loader_of bs) s with
    | (s1, Ok _) => train_loop n (loader_of bs) s1
    | (s1, Raise x) => (s1, Raise x)
    end.
Proof.
  unfold train_loop. rewrite seq_app, for_range_app. cbn [Nat.add].
  destruct (for_range (loader_of bs) (seq 0 m) s) as [s1 [u|x]]; [|reflexivity].
  apply for_range_fixed. now rewrite !length_seq.
Qed.

Section OneStepFacts.
Variable resize_ : images -> images.
Variable sgd_update_01 : params -> grads -> params.

(** X5: the cells that take one step by hand.  The model has no gradient
    before its first backward pass and the gradient of the first loss after
    it.  The one-step cell then zeroes that gradient before its own backward
    pass, so (adding a gradient to a zeroed buffer giving that gradient) the
    gradient it prints, and the one [optimizer.step()] then applies to the
    weights, is the gradient of the new batch alone.  With the
    [zero_grad] line taken out, the printed gradient is the first one with
    the new one added. *)
Theorem one_step_uses_new_gradient (w0 : params) (b1 b2 : batch) :
  (forall g0 g : grads, accumulate (zero_ g0) g = g) ->
  let new_gradient :=
    autograd (criterion (model w0 (resize_ (fst b2))) (snd b2)) in
  let '(t0, loss1) := cell_loss w0 b1 in
  let '(t1, (before, after)) := cell_backward t0 loss1 in
  let '(t2, printed) := cell_gradient resize_ t1 b2 in
  before = None
  /\ after = Some (batch_gradient w0 b1)
  /\ printed = Some new_gradient
  /\ cell_step sgd_update_01 t2
     = {| weights := sgd_update_01 w0 new_gradient; grad := Some new_gradient |}
  /\ snd (cell_gradient_no_zero resize_ t1 b2)
     = Some (accumulate (batch_gradient w0 b1) new_gradient).
Proof.
  intros Hzero. cbn. rewrite Hzero. repeat split.
Qed.

End OneStepFacts.
End Facts.

Lemma train_loop_shuffled_witness :
  dl_len toy_shuffled <> 0
  /\ train_loop 2 toy_shuffled (toy_session 1 None [])
     = (toy_session (-9) (Some 12%Z)
          ["Training loss: neg"; "Training loss: nonneg"], Ok tt).
Proof.
  split; [discriminate|].
  rewrite (proj1 (train_loop_shuffled (F := toy) 2 toy_shuffled
                    (toy_session 1 None []) ltac:(discriminate)
                    ltac:(intros e _; reflexivity))).
  reflexivity.
Defined.

Lemma train_loop_empty_loader_witness :
  epochs <> 0
  /\ train_loop (F := toy) epochs (loader_of []) (toy_session 1 None [])
     = (toy_session 1 None [], Raise ZeroDivisionError).
Proof.
  split; [discriminate|].
  apply (train_loop_empty_loader (F := toy)). discriminate.
Defined.

Lemma one_step_uses_new_gradient_witness :
  (forall g0 g : Z, (0 + g)%Z = g)
  /\ cell_step (F := toy) (fun w g => (w - g)%Z)
       (fst (cell_gradient (F := toy) (fun x => x)
               (fst (cell_backward (F := toy)
                       (fst (cell_loss (F := toy) 1%Z (2, 3)%Z))
                       (snd (cell_loss (F := toy) 1%Z (2, 3)%Z))))
               (5, 1)%Z))
     = Build_trainer (F := toy) (-7)%Z (Some 8%Z).
Proof.
  split; [intros g0 g; apply Z.add_0_l|].
  pose proof (one_step_uses_new_gradient (F := toy) (fun x => x)
                (fun w g => (w - g)%Z) 1%Z (2, 3)%Z (5, 1)%Z
                (fun g0 g => Z.add_0_l g)) as H.
  cbv zeta in H. cbn [cell_loss cell_backward cell_gradient fst snd] in H |- *.
  exact (proj1 (proj2 (proj2 (proj2 H)))).
Defined.

End TrainingExtras.

(** * More about the checkpoint notebook *)

Module CheckpointExtras.
Import Checkpoint CheckpointFacts.

(** *** Looking parameters up by name *)

Lemma state_dict_layer_weight (m : Network) (k : nat) :
  dict_get (state_dict m) (layer_prefix k ++ "weight")%string
  = option_map weight (nth_error (hidden_layers m) k).
Proof.
  unfold state_dict. rewrite dict_get_app.
  pose proof (dict_get_hidden_weight (hidden_layers m) 0 k) as E.
  change (0 + k) with k in E. rewrite E.
  destruct (nth_error (hidden_layers m) k); [reflexivity|].
  cbn [option_map linear_entries dict_get].
  destruct (String.eqb_spec ("output." ++ "weight") (layer_prefix k ++ "weight"))
    as [H|_]; [symmetry in H; now apply layer_key_not_output in H|].
  destruct (String.eqb_spec ("output." ++ "bias") (layer_prefix k ++ "weight"))
    as [H|_]; [symmetry in H; now apply layer_key_not_output in H|].
  reflexivity.
Qed.

Lemma state_dict_layer_bias (m : Network) (k : nat) :
  dict_get (state_dict m) (layer_prefix k ++ "bias")%string
  = option_map bias (nth_error (hidden_layers m) k).
Proof.
  unfold state_dict. rewrite dict_get_app.
  pose proof (dict_get_hidden_bias (hidden_layers m) 0 k) as E.
  change (0 + k) with k in E. rewrite E.
  destruct (nth_error (hidden_layers m) k); [reflexivity|].
  cbn [option_map linear_entries dict_get].
  destruct (String.eqb_spec ("output." ++ "weight") (layer_prefix k ++ "bias"))
    as [H|_]; [symmetry in H; now apply layer_key_not_output in H|].
  destruct (String.eqb_spec ("output." ++ "bias") (layer_prefix k ++ "bias"))
    as [H|_]; [symmetry in H; now apply layer_key_not_output in H|].
  reflexivity.
Qed.

Lemma map_nth_ext {A B : Type} (f : A -> B) (l1 : list A) :
  forall l2 : list A,
  (forall k, option_map f (nth_error l1 k) = option_map f (nth_error l2 k)) ->
  map f l1 = map f l2.
Proof.
  induction l1 as [|a l1 IH]; intros [|b l2] H.
  - reflexivity.
  - specialize (H 0). discriminate.
  - specialize (H 0). discriminate.
  - cbn. f_equal.
    + specialize (H 0). now injection H.
    + apply IH. intros k. exact (H (S k)).
Qed.

(** Networks of one layout whose parameters agree name by name are equal. *)
Lemma chain_ext (hs : list Z) : forall (prev : Z) (ls1 ls2 : list Linear),
  chain_fits prev hs ls1 = true -> chain_fits prev hs ls2 = true ->
  map weight ls1 = map weight ls2 -> map bias ls1 = map bias ls2 ->
  ls1 = ls2.
Proof.
  induction hs as [|h hs IH]; intros prev [|l1 ls1] [|l2 ls2] H1 H2 Hw Hb;
    try discriminate; [reflexivity|].
  cbn [chain_fits] in H1, H2. apply andb_true_iff in H1, H2.
  destruct H1 as [F1 C1], H2 as [F2 C2].
  cbn [map] in Hw, Hb. injection Hw as Hw0 Hw. injection Hb as Hb0 Hb.
  apply linear_fits_inv in F1, F2.
  destruct F1 as (_ & _ & A1 & A2 & _), F2 as (_ & _ & B1 & B2 & _).
  f_equal; [|now apply (IH h)].
  destruct l1, l2; cbn in *; congruence.
Qed.

Lemma network_ext (i o : Z) (hs : list Z) (m1 m2 : Network) :
  has_arch i o hs m1 = true -> has_arch i o hs m2 = true ->
  (forall name, dict_get (state_dict m1) name = dict_get (state_dict m2) name) ->
  m1 = m2.
Proof.
  intros H1 H2 Hget.
  unfold has_arch in H1, H2. rewrite !andb_true_iff in H1, H2.
  destruct H1 as [[_ C1] O1], H2 as [[_ C2] O2].
  assert (hidden_layers m1 = hidden_layers m2) as Eh.
  { apply (chain_ext hs i); try assumption; apply map_nth_ext; intros k.
    - rewrite <- !state_dict_layer_weight. apply Hget.
    - rewrite <- !state_dict_layer_bias. apply Hget. }
  assert (output m1 = output m2) as Eo.
  { pose proof (Hget "output.weight") as Ew.
    pose proof (Hget "output.bias") as Eb.
    rewrite !state_dict_output_weight in Ew.
    rewrite !state_dict_output_bias in Eb.
    apply linear_fits_inv in O1, O2.
    destruct O1 as (_ & _ & A1 & A2 & _), O2 as (_ & _ & B1 & B2 & _).
    destruct (output m1), (output m2); cbn in *; congruence. }
  destruct m1, m2; cbn in *; congruence.
Qed.

(** *** Layouts and shapes *)

Lemma chain_fits_weight_shapes (hs : list Z) : forall (prev : Z) (ls : list Linear),
  chain_fits prev hs ls = true ->
  map (fun l => shape (weight l)) ls = weight_shapes prev hs.
Proof.
  induction hs as [|h hs IH]; intros prev [|l ls] H; try discriminate;
    [reflexivity|].
  cbn [chain_fits] in H. apply andb_true_iff in H. destruct H as [F C].
  apply linear_fits_inv in F. destruct F as (_ & _ & _ & _ & Ew & _).
  cbn [map weight_shapes]. now rewrite Ew, (IH _ _ C).
Qed.

Lemma weight_shapes_inj (hs : list Z) : forall (hs' : list Z) (i i' : Z),
  weight_shapes i hs = weight_shapes i' hs' ->
  hs = hs' /\ (hs <> [] -> i = i').
Proof.
  induction hs as [|h hs IH]; intros [|h' hs'] i i' H; try discriminate.
  - split; [reflexivity | congruence].
  - cbn [weight_shapes] in H. injection H as -> -> H.
    destruct (IH _ _ _ H) as [-> _]. split; [reflexivity | auto].
Qed.

Lemma load_param_shape (sd : list (string * value)) (key : string) (p : tensor)
  (r : report) :
  shape (fst (load_param sd key p r)) = shape p.
Proof.
  unfold load_param. destruct (aborted r); [reflexivity|].
  destruct (dict_get sd key) as [[| |t|]|]; try reflexivity.
  now destruct (shape_eqb (shape t) (shape p)).
Qed.

Lemma load_linear_fits (sd : list (string * value)) (prefix : string)
  (l : Linear) (r : report) (i o : Z) :
  linear_fits i o (fst (load_linear sd prefix l r)) = linear_fits i o l.
Proof.
  unfold load_linear.
  pose proof (load_param_shape sd (prefix ++ "weight") (weight l) r) as Hw.
  destruct (load_param sd (prefix ++ "weight") (weight l) r) as [w r1].
  pose proof (load_param_shape sd (prefix ++ "bias") (bias l) r1) as Hb.
  destruct (load_param sd (prefix ++ "bias") (bias l) r1) as [b r2].
  cbn [fst] in *. unfold linear_fits. cbn. now rewrite Hw, Hb.
Qed.

Lemma load_hidden_fits (sd : list (string * value)) (hs : list Z) :
  forall (prev : Z) (ls : list Linear) (i : nat) (r : report),
  chain_fits prev hs (fst (load_hidden sd i ls r)) = chain_fits prev hs ls.
Proof.
  induction hs as [|h hs IH]; intros prev [|l ls] i r; try reflexivity.
  - cbn [load_hidden].
    destruct (load_linear sd (layer_prefix i) l r) as [l1 r1].
    now destruct (load_hidden sd (S i) ls r1).
  - cbn [load_hidden].
    pose proof (load_linear_fits sd (layer_prefix i) l r prev h) as Hl.
    destruct (load_linear sd (layer_prefix i) l r) as [l1 r1].
    pose proof (IH h ls (S i) r1) as Hls.
    destruct (load_hidden sd (S i) ls r1) as [ls1 r2].
    cbn [fst chain_fits] in *. now rewrite Hl, Hls.
Qed.

Lemma load_state_dict_arch (m : Network) (sd : value) (i o : Z) (hs : list Z) :
  has_arch i o hs (fst (load_state_dict m sd)) = has_arch i o hs m.
Proof.
  destruct sd as [z|items|t|d]; try reflexivity.
  unfold load_state_dict.
  pose proof (load_hidden_fits d hs i (hidden_layers m) 0 no_report) as Hh.
  destruct (load_hidden d 0 (hidden_layers m) no_report) as [hl r1].
  pose proof (load_linear_fits d "output." (output m) r1 (last hs i) o) as Ho.
  destruct (load_linear d "output." (output m) r1) as [out r2].
  cbn [fst] in *.
  assert (has_arch i o hs {| hidden_layers := hl; output := out |}
          = has_arch i o hs m) as E.
  { unfold has_arch. cbn [hidden_layers output]. now rewrite Hh, Ho. }
  destruct (aborted r2); [exact E|].
  match goal with |- context [if ?c then _ else _] => destruct c end; exact E.
Qed.

Lemma keys_load_hidden (sd : list (string * value)) (ls : list Linear) :
  forall (i : nat) (r : report),
  keys (hidden_entries i (fst (load_hidden sd i ls r))) = keys (hidden_entries i ls).
Proof.
  intros i r. apply keys_hidden_entries. revert i r.
  induction ls as [|l ls IH]; intros i r; [reflexivity|].
  cbn [load_hidden].
  destruct (load_linear sd (layer_prefix i) l r) as [l1 r1].
  specialize (IH (S i) r1).
  destruct (load_hidden sd (S i) ls r1) as [ls1 r2].
  cbn [fst List.length] in *. now rewrite IH.
Qed.

(** X6: [load_state_dict] never changes the layout of the model it loads
    into, whatever it is given and whether or not it raises: the layers,
    their sizes, the shapes of their parameters and the parameter names stay
    what they were. *)
Theorem load_state_dict_keeps_layout (m : Network) (sd : value) :
  (forall (i o : Z) (hs : list Z),
     has_arch i o hs (fst (load_state_dict m sd)) = has_arch i o hs m)
  /\ layers_ok (fst (load_state_dict m sd)) = layers_ok m
  /\ keys (state_dict (fst (load_state_dict m sd))) = keys (state_dict m).
Proof.
  split; [intros i o hs; apply load_state_dict_arch|].
  destruct sd as [z|items|t|d]; try (split; reflexivity).
  unfold load_state_dict.
  pose proof (keys_load_hidden d (hidden_layers m) 0 no_report) as Hk.
  assert (forall ls i r,
            forallb linear_ok (fst (load_hidden d i ls r)) = forallb linear_ok ls)
    as Hall.
  { induction ls as [|l ls IH]; intros i r; [reflexivity|].
    cbn [load_hidden]. unfold load_linear.
    pose proof (load_param_shape d (layer_prefix i ++ "weight") (weight l) r) as Hw.
    destruct (load_param d (layer_prefix i ++ "weight") (weight l) r) as [w r1].
    pose proof (load_param_shape d (layer_prefix i ++ "bias") (bias l) r1) as Hb.
    destruct (load_param d (layer_prefix i ++ "bias") (bias l) r1) as [b r2].
    specialize (IH (S i) r2).
    destruct (load_hidden d (S i) ls r2) as [ls1 r3].
    cbn [fst forallb] in *. rewrite IH. f_equal.
    unfold linear_ok. cbn. now rewrite Hw, Hb. }
  specialize (Hall (hidden_layers m) 0 no_report).
  destruct (load_hidden d 0 (hidden_layers m) no_report) as [hl r1].
  unfold load_linear.
  pose proof (load_param_shape d ("output." ++ "weight") (weight (output m)) r1)
    as Hw.
  destruct (load_param d ("output." ++ "weight") (weight (output m)) r1) as [w r2].
  pose proof (load_param_shape d ("output." ++ "bias") (bias (output m)) r2)
    as Hb.
  destruct (load_param d ("output." ++ "bias") (bias (output m)) r2) as [b r3].
  cbn [fst] in *.
  assert (layers_ok {| hidden_layers := hl;
                       output := {| in_features := in_features (output m);
                                    out_features := out_features (output m);
                                    weight := w; bias := b |} |}
          = layers_ok m
          /\ keys (state_dict
                     {| hidden_layers := hl;
                        output := {| in_features := in_features (output m);
                                     out_features := out_features (output m);
                                     weight := w; bias := b |} |})
             = keys (state_dict m)) as E.
  { split.
    - unfold layers_ok. cbn [hidden_layers output]. rewrite Hall. f_equal.
      unfold linear_ok. cbn [in_features out_features weight bias].
      now rewrite Hw, Hb.
    - unfold state_dict, keys in *. cbn [hidden_layers output].
      rewrite !map_app. now rewrite Hk. }
  destruct (aborted r3); [exact E|].
  match goal with |- context [if ?c then _ else _] => destruct c end; exact E.
Qed.

(** X7: what the notebook says of [load_state_dict], "loading the state dict
    works only if the model architecture is exactly the same as the
    checkpoint architecture".  The state dict of a network loads into another
    network without an exception if and only if the two have the same input
    size, the same output size and the same hidden widths. *)
Theorem load_state_dict_same_layout (fresh trained : Network)
  (i o i' o' : Z) (hs hs' : list Z) :
  has_arch i o hs fresh = true ->
  has_arch i' o' hs' trained = true ->
  snd (load_state_dict fresh (state_dict_value trained)) = Ok tt
  <-> i = i' /\ o = o' /\ hs = hs'.
Proof.
  intros Hf Ht. split.
  - intros Hok.
    destruct (load_state_dict fresh (state_dict_value trained)) as [m1 r] eqn:El.
    cbn [snd] in Hok. subst r.
    pose proof (load_state_dict_arch fresh (state_dict_value trained) i o hs)
      as Hkeep.
    rewrite El in Hkeep. cbn [fst] in Hkeep. rewrite Hf in Hkeep.
    unfold state_dict_value in El.
    apply load_state_dict_ok_inv in El. destruct El as [_ Hnames].
    assert (forall name,
              dict_get (state_dict trained) name = dict_get (state_dict m1) name)
      as Hget.
    { intros name. specialize (Hnames name).
      rewrite (dict_get_map (fun _ => VTensor)) in Hnames.
      destruct (dict_get (state_dict trained) name),
               (dict_get (state_dict m1) name); cbn in Hnames; congruence. }
    pose proof Hkeep as H1. pose proof Ht as H2.
    unfold has_arch in H1, H2. rewrite !andb_true_iff in H1, H2.
    destruct H1 as [[N1 C1] O1], H2 as [[N2 C2] O2].
    assert (weight_shapes i' hs' = weight_shapes i hs) as Ews.
    { rewrite <- (chain_fits_weight_shapes _ _ _ C1).
      rewrite <- (chain_fits_weight_shapes _ _ _ C2).
      apply map_nth_ext. intros k.
      pose proof (Hget (layer_prefix k ++ "weight")%string) as E.
      rewrite !state_dict_layer_weight in E.
      destruct (nth_error (hidden_layers trained) k),
               (nth_error (hidden_layers m1) k); cbn in E |- *; congruence. }
    apply weight_shapes_inj in Ews. destruct Ews as [-> Ei].
    assert (i' = i) as -> by (apply Ei; destruct hs; [discriminate | congruence]).
    pose proof (Hget "output.weight") as Ew.
    rewrite !state_dict_output_weight in Ew. injection Ew as Ew.
    apply linear_fits_inv in O1, O2.
    destruct O1 as (_ & _ & _ & _ & S1 & _), O2 as (_ & _ & _ & _ & S2 & _).
    rewrite Ew, S1 in S2. injection S2 as ->. auto.
  - intros (-> & -> & ->).
    now rewrite (load_own_layout i' o' hs' fresh trained Hf Ht).
Qed.

Lemma load_state_dict_same_layout_witness :
  has_arch 3 2 [4%Z] small_model = true
  /\ has_arch 784 10 [2%Z] mnist_model = true
  /\ snd (load_state_dict small_model (state_dict_value mnist_model)) <> Ok tt.
Proof.
  split; [reflexivity|]. split; [reflexivity|]. intros H.
  apply (load_state_dict_same_layout small_model mnist_model 3 2 784 10
           [4%Z] [2%Z] eq_refl eq_refl) in H.
  destruct H as [H _]. discriminate H.
Defined.

(** *** What the outcome of loading depends on *)

Lemma keys_name_shape (es : list (string * tensor)) :
  keys es = map fst (map name_shape es).
Proof. unfold keys. rewrite map_map. reflexivity. Qed.

Lemma hidden_name_shapes (hs : list Z) :
  forall (prev : Z) (ls ls' : list Linear) (i : nat),
  chain_fits prev hs ls = true -> chain_fits prev hs ls' = true ->
  map name_shape (hidden_entries i ls) = map name_shape (hidden_entries i ls').
Proof.
  induction hs as [|h hs IH]; intros prev [|l ls] [|l' ls'] i H H';
    try discriminate; [reflexivity|].
  cbn [chain_fits] in H, H'. apply andb_true_iff in H, H'.
  destruct H as [F C], H' as [F' C'].
  apply linear_fits_inv in F, F'.
  destruct F as (_ & _ & _ & _ & W & B), F' as (_ & _ & _ & _ & W' & B').
  cbn [hidden_entries linear_entries app map]. unfold name_shape at 1 2 4 5.
  cbn [fst snd]. rewrite W, B, W', B'. f_equal. f_equal. now apply (IH h).
Qed.

Lemma state_dict_name_shapes (i o : Z) (hs : list Z) (m m' : Network) :
  has_arch i o hs m = true -> has_arch i o hs m' = true ->
  map name_shape (state_dict m) = map name_shape (state_dict m').
Proof.
  intros H H'. unfold has_arch in H, H'. rewrite !andb_true_iff in H, H'.
  destruct H as [[_ C] O], H' as [[_ C'] O'].
  unfold state_dict. rewrite !map_app. f_equal.
  - now apply (hidden_name_shapes hs i).
  - apply linear_fits_inv in O, O'.
    destruct O as (_ & _ & _ & _ & W & B), O' as (_ & _ & _ & _ & W' & B').
    cbn [linear_entries map]. unfold name_shape. cbn [fst snd].
    now rewrite W, B, W', B'.
Qed.

Lemma mismatch_in_name_shapes (sd : list (string * value))
  (es : list (string * tensor)) : forall es' : list (string * tensor),
  map name_shape es = map name_shape es' ->
  mismatch_in sd es = mismatch_in sd es'.
Proof.
  unfold mismatch_in.
  induction es as [|[k p] es IH]; intros [|[k' p'] es'] H; try discriminate;
    [reflexivity|].
  cbn [map] in H. injection H as Hk Hs H. cbn in Hk, Hs. subst k'.
  assert (is_mismatch sd (k, p) = is_mismatch sd (k, p')) as Em
    by (unfold is_mismatch; cbn [fst snd]; now rewrite Hs).
  cbn [filter]. rewrite Em.
  destruct (is_mismatch sd (k, p')); cbn [keys map fst]; [f_equal|];
    now apply IH.
Qed.

Lemma is_bad_keys (sd : list (string * value)) (es : list (string * tensor)) :
  forall es' : list (string * tensor),
  keys es = keys es' ->
  existsb (is_bad sd) es = existsb (is_bad sd) es'.
Proof.
  induction es as [|[k p] es IH]; intros [|[k' p'] es'] H; try discriminate;
    [reflexivity|].
  cbn [keys map fst] in H. injection H as -> H.
  cbn [existsb]. rewrite (IH es' H). reflexivity.
Qed.

Lemma verdict_layout (sd : list (string * value)) (i o : Z) (hs : list Z)
  (m m' : Network) :
  has_arch i o hs m = true -> has_arch i o hs m' = true ->
  verdict sd m = verdict sd m'.
Proof.
  intros H H'.
  pose proof (state_dict_name_shapes i o hs m m' H H') as Ens.
  pose proof (keys_state_dict i o hs m m' H H') as Ek.
  unfold verdict, missing_in, unexpected_keys.
  now rewrite Ek, (mismatch_in_name_shapes sd _ _ Ens).
Qed.

(** Loading into two networks of one layout gives the same exception or the
    same model: nothing of what the networks held before is left. *)
Lemma load_into_layout (sd : value) (i o : Z) (hs : list Z) (m m' : Network) :
  has_arch i o hs m = true -> has_arch i o hs m' = true ->
  load_into m sd = load_into m' sd.
Proof.
  intros H H'. unfold load_into.
  destruct sd as [z|items|t|d]; try reflexivity.
  pose proof (keys_state_dict i o hs m m' H H') as Ek.
  destruct (existsb (is_bad d) (state_dict m)) eqn:Eb.
  - pose proof Eb as Eb'. rewrite (is_bad_keys d _ _ Ek) in Eb'.
    apply load_state_dict_bad in Eb, Eb'.
    destruct (load_state_dict m (VDict d)) as [m1 r1].
    destruct (load_state_dict m' (VDict d)) as [m1' r1'].
    cbn [snd] in Eb, Eb'. now subst.
  - pose proof Eb as Eb'. rewrite (is_bad_keys d _ _ Ek) in Eb'.
    destruct (load_state_dict m (VDict d)) as [m1 r1] eqn:E1.
    destruct (load_state_dict m' (VDict d)) as [m1' r1'] eqn:E1'.
    pose proof E1 as S1. pose proof E1' as S1'.
    rewrite load_state_dict_spec in S1, S1' by assumption.
    injection S1 as M1 R1. injection S1' as M1' R1'.
    rewrite (verdict_layout d i o hs m m' H H') in R1.
    rewrite R1' in R1. subst r1'.
    destruct r1 as [u|e]; [|reflexivity].
    f_equal. apply (network_ext i o hs).
    + rewrite <- M1. now rewrite has_arch_map_params by apply load_entry_shape.
    + rewrite <- M1'. now rewrite has_arch_map_params by apply load_entry_shape.
    + intros name.
      apply load_state_dict_ok_inv in E1, E1'.
      destruct E1 as [_ N1], E1' as [_ N1'].
      specialize (N1 name). specialize (N1' name). rewrite N1 in N1'.
      destruct (dict_get (state_dict m1) name),
               (dict_get (state_dict m1') name); cbn in N1'; congruence.
Qed.

Lemma map_VInt_inj (l : list Z) : forall l' : list Z,
  map VInt l = map VInt l' -> l = l'.
Proof.
  induction l as [|a l IH]; intros [|a' l'] E; try discriminate; [reflexivity|].
  cbn in E. injection E as -> E. f_equal. now apply IH.
Qed.

Lemma dict_get_hidden_other (ls : list Linear) (k : string) : forall i : nat,
  (forall r, k <> String "h" r) ->
  dict_get (hidden_entries i ls) k = None.
Proof.
  intros i Hk. revert i. induction ls as [|l ls IH]; intros i; [reflexivity|].
  cbn [hidden_entries linear_entries app dict_get].
  destruct (String.eqb_spec (layer_prefix i ++ "weight") k) as [E|_].
  { rewrite layer_key_shape in E. cbn in E. symmetry in E. now apply Hk in E. }
  destruct (String.eqb_spec (layer_prefix i ++ "bias") k) as [E|_].
  { rewrite layer_key_shape in E. cbn in E. symmetry in E. now apply Hk in E. }
  apply IH.
Qed.

Lemma state_dict_no_input_size (m : Network) :
  dict_get (state_dict m) "input_size" = None.
Proof.
  unfold state_dict. rewrite dict_get_app.
  rewrite dict_get_hidden_other by (intros r; discriminate).
  reflexivity.
Qed.

(** *** Parameter names *)

Lemma in_keys_hidden (ls : list Linear) : forall (i : nat) (k : string),
  In k (keys (hidden_entries i ls)) ->
  exists j f, i <= j /\ k = (layer_prefix j ++ f)%string.
Proof.
  induction ls as [|l ls IH]; intros i k H; [contradiction|].
  cbn [hidden_entries linear_entries app keys map fst] in H.
  destruct H as [<-|[<-|H]].
  - exists i, "weight". auto.
  - exists i, "bias". auto.
  - destruct (IH (S i) k H) as (j & f & Hj & ->). exists j, f. split; [lia | reflexivity].
Qed.

Lemma NoDup_keys_hidden (ls : list Linear) : forall i : nat,
  NoDup (keys (hidden_entries i ls)).
Proof.
  induction ls as [|l ls IH]; intros i; [constructor|].
  cbn [hidden_entries linear_entries app keys map fst].
  constructor; [|constructor; [|apply IH]].
  - intros [E|H].
    + apply layer_key_inj in E. destruct E as [_ E]. discriminate.
    + apply in_keys_hidden in H. destruct H as (j & f & Hj & E).
      apply layer_key_inj in E. lia.
  - intros H. apply in_keys_hidden in H. destruct H as (j & f & Hj & E).
    apply layer_key_inj in E. lia.
Qed.

Lemma dict_get_NoDup {A : Type} (d : list (string * A)) (k : string) (v : A) :
  NoDup (keys d) -> In (k, v) d -> dict_get d k = Some v.
Proof.
  induction d as [|[k1 v1] d IH]; intros Hnd Hin; [contradiction|].
  cbn [keys map fst] in Hnd. inversion Hnd as [|? ? Hnot Hnd']; subst.
  cbn [dict_get]. destruct Hin as [[= -> ->]|Hin].
  - now rewrite String.eqb_refl.
  - destruct (String.eqb_spec k1 k) as [->|_]; [|now apply IH].
    exfalso. apply Hnot. unfold keys. apply in_map_iff. now exists (k, v).
Qed.

(** X11: the parameter names of a network are pairwise distinct, whatever
    its number of layers, so that its state dict gives back under each name
    the parameter that was stored under it. *)
Theorem state_dict_names_distinct (m : Network) :
  NoDup (keys (state_dict m))
  /\ forall (k : string) (t : tensor),
       In (k, t) (state_dict m) -> dict_get (state_dict m) k = Some t.
Proof.
  assert (NoDup (keys (state_dict m))) as Hnd.
  { unfold state_dict, keys. rewrite map_app. apply NoDup_app.
    - apply NoDup_keys_hidden.
    - cbn. constructor; [|constructor; [|constructor]].
      + intros [E|[]]. discriminate.
      + intros [].
    - intros k Hk Hout. apply in_keys_hidden in Hk.
      destruct Hk as (j & f & _ & ->).
      cbn [linear_entries map fst] in Hout.
      destruct Hout as [E|[E|[]]]; symmetry in E;
        now apply layer_key_not_output in E. }
  split; [exact Hnd|]. intros k t. now apply dict_get_NoDup.
Qed.

(** X12: for every network with three hidden layers, as those of the
    notebook, [model.state_dict().keys()] is the list of eight names that
    the notebook prints. *)
Theorem state_dict_keys_printed (i o a b c : Z) (m : Network) :
  has_arch i o [a; b; c] m = true ->
  keys (state_dict m)
  = ["hidden_layers.0.weight"; "hidden_layers.0.bias";
     "hidden_layers.1.weight"; "hidden_layers.1.bias";
     "hidden_layers.2.weight"; "hidden_layers.2.bias";
     "output.weight"; "output.bias"].
Proof.
  intros H. unfold has_arch in H. rewrite !andb_true_iff in H.
  destruct H as [[_ C] _]. apply chain_fits_three in C.
  destruct C as (l0 & l1 & l2 & E & _). unfold state_dict. now rewrite E.
Qed.

(** *** Loading twice *)

Lemma load_entry_idem (sd : list (string * value)) (key : string) (p : tensor) :
  load_entry sd key (load_entry sd key p) = load_entry sd key p.
Proof.
  unfold load_entry. destruct (dict_get sd key) as [[| |t|]|]; try reflexivity.
  destruct (shape_eqb (shape t) (shape p)) eqn:E; cbn [shape]; now rewrite E.
Qed.

Lemma map_hidden_idem (f : string -> tensor -> tensor) (ls : list Linear) :
  (forall k p, f k (f k p) = f k p) ->
  forall i : nat, map_hidden f i (map_hidden f i ls) = map_hidden f i ls.
Proof.
  intros Hf. induction ls as [|l ls IH]; intros i; [reflexivity|].
  cbn [map_hidden]. rewrite IH. f_equal.
  unfold map_linear. cbn. now rewrite !Hf.
Qed.

Lemma name_shapes_map_params (f : string -> tensor -> tensor) (m : Network) :
  (forall k p, shape (f k p) = shape p) ->
  map name_shape (state_dict (map_params f m)) = map name_shape (state_dict m).
Proof.
  intros Hf. rewrite state_dict_map_params, map_map. apply map_ext.
  intros [k p]. unfold name_shape. cbn [fst snd]. now rewrite Hf.
Qed.

Lemma verdict_map_params (sd : list (string * value))
  (f : string -> tensor -> tensor) (m : Network) :
  (forall k p, shape (f k p) = shape p) ->
  verdict sd (map_params f m) = verdict sd m.
Proof.
  intros Hf. pose proof (name_shapes_map_params f m Hf) as Ens.
  assert (keys (state_dict (map_params f m)) = keys (state_dict m)) as Ek
    by (rewrite !keys_name_shape; now rewrite Ens).
  unfold verdict, missing_in, unexpected_keys.
  now rewrite Ek, (mismatch_in_name_shapes sd _ _ Ens).
Qed.

(** X13: running [model.load_state_dict(state_dict)] a second time, as the
    recorded session did, changes nothing more and ends the same way: the
    same exception, or none. *)
Theorem load_state_dict_twice (m : Network) (sd : list (string * value)) :
  all_tensors sd = true ->
  load_state_dict (fst (load_state_dict m (VDict sd))) (VDict sd)
  = load_state_dict m (VDict sd).
Proof.
  intros Hall.
  rewrite (load_state_dict_spec m sd) by now apply all_tensors_not_bad.
  cbn [fst]. rewrite load_state_dict_spec by now apply all_tensors_not_bad.
  rewrite verdict_map_params by apply load_entry_shape.
  f_equal. unfold map_params. cbn [hidden_layers output].
  rewrite map_hidden_idem by apply load_entry_idem.
  f_equal. unfold map_linear. cbn. now rewrite !load_entry_idem.
Qed.

Lemma load_state_dict_twice_witness :
  all_tensors (map (fun kv => (fst kv, VTensor (snd kv))) (state_dict mnist_model))
  = true
  /\ snd (load_state_dict
            (fst (load_state_dict small_model (state_dict_value mnist_model)))
            (state_dict_value mnist_model))
     = snd (load_state_dict small_model (state_dict_value mnist_model)).
Proof.
  split; [reflexivity|].
  unfold state_dict_value.
  now rewrite (load_state_dict_twice small_model
                 (map (fun kv => (fst kv, VTensor (snd kv))) (state_dict mnist_model))
                 eq_refl).
Defined.

Lemma state_dict_keys_printed_witness :
  has_arch 1 1 [1; 1; 1]%Z
    {| hidden_layers :=
         [{| in_features := 1; out_features := 1;
             weight := zeros [1; 1]%Z; bias := zeros [1]%Z |};
          {| in_features := 1; out_features := 1;
             weight := zeros [1; 1]%Z; bias := zeros [1]%Z |};
          {| in_features := 1; out_features := 1;
             weight := zeros [1; 1]%Z; bias := zeros [1]%Z |}];
       output := {| in_features := 1; out_features := 1;
                    weight := zeros [1; 1]%Z; bias := zeros [1]%Z |} |} = true
  /\ keys (state_dict
             {| hidden_layers :=
                  [{| in_features := 1; out_features := 1;
                      weight := zeros [1; 1]%Z; bias := zeros [1]%Z |};
                   {| in_features := 1; out_features := 1;
                      weight := zeros [1; 1]%Z; bias := zeros [1]%Z |};
                   {| in_features := 1; out_features := 1;
                      weight := zeros [1; 1]%Z; bias := zeros [1]%Z |}];
                output := {| in_features := 1; out_features := 1;
                             weight := zeros [1; 1]%Z; bias := zeros [1]%Z |} |})
     = ["hidden_layers.0.weight"; "hidden_layers.0.bias";
        "hidden_layers.1.weight"; "hidden_layers.1.bias";
        "hidden_layers.2.weight"; "hidden_layers.2.bias";
        "output.weight"; "output.bias"].
Proof.
  split; [reflexivity|].
  apply (state_dict_keys_printed 1 1 1 1 1). reflexivity.
Defined.

Section Facts.
Context {T : Torch}.

Lemma load_checkpoint_load_into (filepath : string) (w : world) :
  load_checkpoint filepath w
  = match dict_get (files w) filepath with
    | None => (Raise (FileNotFoundError filepath), w)
    | Some ck =>
        match getitem ck "input_size" with
        | Raise e => (Raise e, w)
        | Ok vi =>
            match getitem ck "output_size" with
            | Raise e => (Raise e, w)
            | Ok vo =>
                match getitem ck "hidden_layers" with
                | Raise e => (Raise e, w)
                | Ok vh =>
                    match fc_model_Network vi vo vh w with
                    | (Raise e, w1) => (Raise e, w1)
                    | (Ok m, w1) =>
                        match getitem ck "state_dict" with
                        | Raise e => (Raise e, w1)
                        | Ok vsd => (load_into m vsd, w1)
                        end
                    end
                end
            end
        end
    end.
Proof.
  unfold load_checkpoint, bind, lift, torch_load, load_into, ret, raise.
  destruct (dict_get (files w) filepath) as [ck|]; [|reflexivity].
  destruct (getitem ck "input_size") as [vi|e]; [|reflexivity].
  destruct (getitem ck "output_size") as [vo|e]; [|reflexivity].
  destruct (getitem ck "hidden_layers") as [vh|e]; [|reflexivity].
  destruct (fc_model_Network vi vo vh w) as [[m|e] w1]; [|reflexivity].
  destruct (getitem ck "state_dict") as [vsd|e]; [|reflexivity].
  destruct (load_state_dict m vsd) as [m1 [u|e]]; reflexivity.
Qed.

(** *** What the constructors depend on *)

Lemma set_rng_same (w : world) : set_rng w (rng w) = w.
Proof. now destruct w. Qed.

Lemma nn_Linear_cases (vi vo : value) :
  (exists e, forall w, nn_Linear vi vo w = (Raise e, w))
  \/ (forall w, exists l g, nn_Linear vi vo w = (Ok l, set_rng w g)).
Proof.
  destruct vi as [i| | |]; try (left; exists TypeError; reflexivity).
  destruct vo as [o| | |]; try (left; exists TypeError; reflexivity).
  destruct (Z.ltb_spec i 0) as [Hi|Hi].
  { left. exists (RuntimeError (NegativeDimension i)). intros w.
    unfold nn_Linear. now rewrite (proj2 (Z.ltb_lt i 0) Hi). }
  destruct (Z.ltb_spec o 0) as [Ho|Ho].
  { left. exists (RuntimeError (NegativeDimension o)). intros w.
    unfold nn_Linear. rewrite (proj2 (Z.ltb_ge i 0) Hi).
    now rewrite (proj2 (Z.ltb_lt o 0) Ho). }
  right. intros w. destruct (nn_Linear_ok i o w Hi Ho) as (l & g & E & _).
  now exists l, g.
Qed.

Lemma linear_chain_cases (vhs : list value) : forall vprev : value,
  (exists e, forall w, exists g, linear_chain vprev vhs w = (Raise e, set_rng w g))
  \/ (forall w, exists ls g, linear_chain vprev vhs w = (Ok ls, set_rng w g)).
Proof.
  induction vhs as [|vh vhs IH]; intros vprev.
  - right. intros w. exists [], (rng w). cbn. now rewrite set_rng_same.
  - cbn [linear_chain]. unfold bind.
    destruct (nn_Linear_cases vprev vh) as [[e He]|Hok].
    + left. exists e. intros w. exists (rng w). now rewrite He, set_rng_same.
    + destruct (IH vh) as [[e He]|Hok2].
      * left. exists e. intros w.
        destruct (Hok w) as (l & g & ->).
        destruct (He (set_rng w g)) as (g1 & ->). now exists g1.
      * right. intros w.
        destruct (Hok w) as (l & g & ->).
        destruct (Hok2 (set_rng w g)) as (ls & g1 & ->).
        now exists (l :: ls), g1.
Qed.

Lemma fc_model_Network_cases (vi vo vh : value) :
  (exists e, forall w, exists g,
       fc_model_Network vi vo vh w = (Raise e, set_rng w g))
  \/ (forall w, exists m g, fc_model_Network vi vo vh w = (Ok m, set_rng w g)).
Proof.
  unfold fc_model_Network.
  destruct vh as [|vhs| |];
    try (left; exists TypeError; intros w; exists (rng w);
         now rewrite set_rng_same).
  destruct vhs as [|vh0 rest].
  { left. exists IndexError. intros w. exists (rng w). now rewrite set_rng_same. }
  unfold bind.
  destruct (linear_chain_cases (vh0 :: rest) vi) as [[e He]|Hok].
  - left. exists e. intros w. destruct (He w) as (g & ->). now exists g.
  - destruct (nn_Linear_cases (last rest vh0) vo) as [[e He]|Hok2].
    + left. exists e. intros w. destruct (Hok w) as (ls & g & ->).
      rewrite He. now exists g.
    + right. intros w. destruct (Hok w) as (ls & g & ->).
      destruct (Hok2 (set_rng w g)) as (out & g1 & ->).
      now eexists; exists g1.
Qed.

(** X8: [load_checkpoint] only reads the disk: whatever the file holds and
    whether or not it raises, every file is afterwards what it was before
    (all it consumes is random numbers, for the initial parameters). *)
Theorem load_checkpoint_reads_only (filepath : string) (w : world) :
  files (snd (load_checkpoint filepath w)) = files w.
Proof.
  rewrite load_checkpoint_load_into.
  destruct (dict_get (files w) filepath) as [ck|]; [|reflexivity].
  destruct (getitem ck "input_size") as [vi|e]; [|reflexivity].
  destruct (getitem ck "output_size") as [vo|e]; [|reflexivity].
  destruct (getitem ck "hidden_layers") as [vh|e]; [|reflexivity].
  destruct (fc_model_Network_cases vi vo vh) as [[e He]|Hok].
  - destruct (He w) as (g & ->). reflexivity.
  - destruct (Hok w) as (m & g & ->).
    now destruct (getitem ck "state_dict").
Qed.

(** X9: the outcome of [load_checkpoint] does not depend on the state of the
    random generator: on the same files it raises the same exception or
    returns the same model, every randomly initialised parameter having been
    overwritten by a recorded array. *)
Theorem load_checkpoint_ignores_generator (filepath : string) (w w' : world) :
  files w = files w' ->
  fst (load_checkpoint filepath w) = fst (load_checkpoint filepath w').
Proof.
  intros Hfiles. rewrite !load_checkpoint_load_into, <- Hfiles.
  destruct (dict_get (files w) filepath) as [ck|]; [|reflexivity].
  destruct (getitem ck "input_size") as [vi|e]; [|reflexivity].
  destruct (getitem ck "output_size") as [vo|e]; [|reflexivity].
  destruct (getitem ck "hidden_layers") as [vh|e]; [|reflexivity].
  destruct (fc_model_Network_cases vi vo vh) as [[e He]|Hok].
  - destruct (He w) as (g & ->). destruct (He w') as (g' & ->). reflexivity.
  - destruct (Hok w) as (m & g & E). destruct (Hok w') as (m' & g' & E').
    rewrite E, E'.
    apply fc_model_Network_inv in E, E'.
    destruct E as (i & o & hs & -> & -> & -> & H).
    destruct E' as (i' & o' & hs' & [= <-] & [= <-] & Ehs & H').
    assert (hs' = hs) as ->.
    { unfold ints in Ehs. injection Ehs as Ehs. symmetry. now apply map_VInt_inj. }
    destruct (getitem ck "state_dict") as [vsd|e]; [|reflexivity].
    cbn [fst]. now apply (load_into_layout vsd i o hs).
Qed.

(** X10: the two saves of the notebook write two kinds of object under the
    one name ['checkpoint.pth'].  On the file written by
    [torch.save(model.state_dict(), 'checkpoint.pth')], whatever the model,
    [load_checkpoint] raises [KeyError 'input_size']. *)
Theorem load_checkpoint_on_state_dict_file (k : kernel) (m : Network) :
  model k = Some m ->
  snd (cell_save_state_dict k) = Ok tt
  /\ fst (load_checkpoint "checkpoint.pth" (disk (fst (cell_save_state_dict k))))
     = Raise (KeyError "input_size").
Proof.
  intros Hm. unfold cell_save_state_dict. rewrite Hm.
  unfold torch_save. cbn [fst snd set_disk disk]. split; [reflexivity|].
  rewrite load_checkpoint_load_into. cbn [files].
  rewrite dict_get_set_same.
  unfold state_dict_value, getitem.
  rewrite (dict_get_map (fun _ => VTensor)), state_dict_no_input_size.
  reflexivity.
Qed.

(** *** The cells around the two saves *)

Lemma load_checkpoint_of_record (filepath : string) (w : world)
  (model : Network) (hs : list Z) :
  dict_get (files w) filepath = Some (checkpoint_of model) ->
  has_arch 784 10 hs model = true ->
  exists g, load_checkpoint filepath w = (Ok model, set_rng w g).
Proof.
  intros Hfile Harch.
  destruct (has_arch_widths _ _ _ _ Harch) as (Hne & Hw & _ & _ & _ & _ & _ & Hpos & _).
  rewrite load_checkpoint_load_into, Hfile.
  change (getitem (checkpoint_of model) "input_size") with (Ok (VInt 784)).
  change (getitem (checkpoint_of model) "output_size") with (Ok (VInt 10)).
  change (getitem (checkpoint_of model) "hidden_layers")
    with (Ok (VList (map (fun each => VInt (out_features each))
                         (hidden_layers model)))).
  change (getitem (checkpoint_of model) "state_dict")
    with (Ok (state_dict_value model)).
  cbv iota beta.
  replace (VList (map (fun each => VInt (out_features each)) (hidden_layers model)))
    with (ints hs) by (unfold ints; now rewrite <- Hw, map_map).
  destruct (fc_model_Network_ok 784 10 hs w) as (fresh & g & -> & Hfresh);
    try assumption; try lia.
  exists g. unfold load_into.
  now rewrite (load_own_layout 784 10 hs fresh model Hfresh Harch).
Qed.

(** X14: the three cells that save the state dict, load it back and load it
    into the model it came from.  For every model, all three succeed; the
    object read back holds the parameters of the model under their names,
    and the model is afterwards what it was. *)
Theorem state_dict_cells_roundtrip (k : kernel) (m : Network)
  (i o : Z) (hs : list Z) :
  model k = Some m ->
  has_arch i o hs m = true ->
  let run := run_cells [cell_save_state_dict; cell_load_state_dict;
                        cell_load_into_model] k in
  snd run = [Ok tt; Ok tt; Ok tt]
  /\ model (fst run) = Some m
  /\ state_dict_var (fst run) = Some (state_dict_value m)
  /\ dict_get (files (disk (fst run))) "checkpoint.pth" = Some (state_dict_value m)
  /\ forall name t,
       getitem (state_dict_value m) name = Ok (VTensor t)
       <-> dict_get (state_dict m) name = Some t.
Proof.
  intros Hm Harch. cbn [run_cells].
  unfold cell_save_state_dict. rewrite Hm. unfold torch_save.
  unfold cell_load_state_dict, torch_load.
  cbn [set_disk disk files model state_dict_var checkpoint].
  rewrite dict_get_set_same.
  unfold cell_load_into_model, call_load_state_dict.
  cbn [set_state_dict set_disk disk files model state_dict_var checkpoint].
  rewrite Hm. rewrite (load_own_layout i o hs m m Harch Harch).
  cbn [fst snd set_model set_state_dict set_disk disk files model state_dict_var
       checkpoint].
  repeat split; try reflexivity; try apply dict_get_set_same.
  - unfold state_dict_value, getitem.
    rewrite (dict_get_map (fun _ => VTensor)).
    destruct (dict_get (state_dict m) name); cbn; congruence.
  - unfold state_dict_value, getitem.
    rewrite (dict_get_map (fun _ => VTensor)). now intros ->.
Qed.

(** X15: the checkpoint cell followed by [model = load_checkpoint(
    'checkpoint.pth')], from any state of the notebook in which [model] is a
    network of input size 784 and output size 10.  Both cells succeed, the
    file and the name [checkpoint] hold the record of the model, and [model]
    is bound to a network equal to the one that was saved. *)
Theorem checkpoint_cells_roundtrip (k : kernel) (m : Network) (hs : list Z) :
  model k = Some m ->
  has_arch 784 10 hs m = true ->
  let run := run_cells [cell_checkpoint; cell_use_checkpoint] k in
  snd run = [Ok tt; Ok tt]
  /\ model (fst run) = Some m
  /\ checkpoint (fst run) = Some (checkpoint_of m)
  /\ dict_get (files (disk (fst run))) "checkpoint.pth" = Some (checkpoint_of m).
Proof.
  intros Hm Harch. cbn [run_cells].
  unfold cell_checkpoint. rewrite Hm. unfold torch_save.
  cbn [set_checkpoint set_disk disk files model state_dict_var checkpoint].
  unfold cell_use_checkpoint.
  cbn [set_checkpoint set_disk disk files model state_dict_var checkpoint].
  match goal with
  | |- context [load_checkpoint "checkpoint.pth" ?w] =>
      destruct (load_checkpoint_of_record "checkpoint.pth" w m hs) as (g & ->);
        [cbn [files]; apply dict_get_set_same | assumption |]
  end.
  cbn [fst snd set_model set_disk set_rng disk files model checkpoint].
  repeat split; try reflexivity. apply dict_get_set_same.
Qed.

End Facts.

Lemma state_dict_cells_roundtrip_witness :
  model (set_model (start empty_disk) small_model) = Some small_model
  /\ has_arch 3 2 [4%Z] small_model = true
  /\ map is_ok
       (snd (run_cells [cell_save_state_dict; cell_load_state_dict;
                        cell_load_into_model]
               (set_model (start empty_disk) small_model)))
     = [true; true; true].
Proof.
  split; [reflexivity|]. split; [reflexivity|].
  rewrite (proj1 (state_dict_cells_roundtrip (T := counting)
                    (set_model (start empty_disk) small_model) small_model
                    3 2 [4%Z] eq_refl eq_refl)).
  reflexivity.
Defined.

Lemma checkpoint_cells_roundtrip_witness :
  model (set_model (start empty_disk) mnist_model) = Some mnist_model
  /\ has_arch 784 10 [2%Z] mnist_model = true
  /\ model (fst (run_cells [cell_checkpoint; cell_use_checkpoint]
                   (set_model (start empty_disk) mnist_model)))
     = Some mnist_model.
Proof.
  split; [reflexivity|]. split; [reflexivity|].
  exact (proj1 (proj2 (checkpoint_cells_roundtrip (T := counting)
                         (set_model (start empty_disk) mnist_model) mnist_model
                         [2%Z] eq_refl eq_refl))).
Defined.

Lemma load_checkpoint_ignores_generator_witness :
  files (disk_with record_small)
  = files (Build_world (T := counting) [("checkpoint.pth", record_small)] 99%Z)
  /\ fst (load_checkpoint "checkpoint.pth"
            (Build_world (T := counting) [("checkpoint.pth", record_small)] 99%Z))
     = Ok small_model.
Proof.
  split; [reflexivity|].
  rewrite <- (load_checkpoint_ignores_generator (T := counting) "checkpoint.pth"
                (disk_with record_small)
                (Build_world (T := counting) [("checkpoint.pth", record_small)] 99%Z)
                eq_refl).
  reflexivity.
Defined.

Lemma load_checkpoint_on_state_dict_file_witness :
  model (set_model (start empty_disk) small_model) = Some small_model
  /\ fst (load_checkpoint "checkpoint.pth"
            (disk (fst (cell_save_state_dict
                          (set_model (start empty_disk) small_model)))))
     = Raise (KeyError "input_size").
Proof.
  split; [reflexivity|].
  exact (proj2 (load_checkpoint_on_state_dict_file (T := counting)
                  (set_model (start empty_disk) small_model) small_model eq_refl)).
Defined.

End CheckpointExtras.
